(** * stormdb.process: sphere fit to head-shape points and MaxFilter command

    Shallow embedding of [src/stormdb/process.py].

    Numbers.  Python floats are idealised as the real numbers of the
    Standard Library ([R]): comparisons, [+ - * /], [sqrt], [np.max] and
    [np.min] are the exact ones, and [linalg.inv] is the exact matrix
    inverse, which fails on a singular matrix.  Rounding, NaN and infinities
    are outside the model.

    Effects.  A Python call either returns or raises; on its way it may call
    the external minimiser [scipy.optimize.fmin_powell] and write log lines.
    Both are recorded, in order, in a trace ([Comp]). *)

From Stdlib Require Import Reals Lra List String ZArith Bool Ascii.
From Stdlib Require Import DecimalString Lia.
Import ListNotations.
Open Scope R_scope.

(* ------------------------------------------------------------------ *)
(** ** Python values, exceptions and computations *)

Module Py.

(** The exception classes the module can raise, directly ([raise ...]) or
    through the interpreter and the libraries it calls. *)
Inductive exn : Type :=
| ValueError (msg : string)
| RuntimeError (msg : string)
| TypeError
| IndexError
| AttributeError
| LinAlgError
| OtherError (msg : string).

(** A 3-component array, as [p['r']] and as the returned origins. *)
Record vec3 : Type := V3 { vx : R; vy : R; vz : R }.

(** A 4-component array: the optimiser's parameter vector
    (center_x, center_y, center_z, radius) and a homogeneous point. *)
Record vec4 : Type := V4 { c0 : R; c1 : R; c2 : R; c3 : R }.

(** What a run leaves behind besides its result. *)
Inductive event : Type :=
| FminPowell (x0 : vec4) (args : list vec3) (disp : bool)
| LogInfo (msg : string).

Inductive res (A : Type) : Type :=
| Raise (e : exn)
| Ok (a : A).
Arguments Raise {A} e.
Arguments Ok {A} a.

(** A computation: the trace it produced and how it ended. *)
Definition Comp (A : Type) : Type := (list event * res A)%type.

Definition ret {A} (a : A) : Comp A := ([], Ok a).
Definition raise {A} (e : exn) : Comp A := ([], Raise e).
Definition emit (ev : event) : Comp unit := ([ev], Ok tt).

Definition bind {A B} (c : Comp A) (k : A -> Comp B) : Comp B :=
  match c with
  | (t, Raise e) => (t, Raise e)
  | (t, Ok a) => let (t', r) := k a in (t ++ t', r)
  end.

Definition trace {A} (c : Comp A) : list event := fst c.
Definition outcome {A} (c : Comp A) : res A := snd c.

(** Python values passed where the code does not fix a type. *)
Inductive pyval : Type :=
| VNone
| VBool (b : bool)
| VInt (z : Z)
| VFloat (x : R)
| VStr (s : string).

(** Truth value of [if v:] for the arguments that are tested this way.
    A float is false exactly when it is zero. *)
Definition truthy (v : pyval) : bool :=
  match v with
  | VNone => false
  | VBool b => b
  | VInt z => negb (Z.eqb z 0)
  | VFloat x => if Req_dec_T x 0 then false else true
  | VStr s => negb (String.eqb s EmptyString)
  end.

(** An argument that is subscripted ([ylim[0]], [origin[2]]): a float,
    or a tuple or list of floats. *)
Inductive pyarg : Type :=
| PyFloat (x : R)
| PySeq (l : list R).

(** [a[i]]: a float is not subscriptable, a sequence raises past its end. *)
Definition getitem (a : pyarg) (i : nat) : Comp R :=
  match a with
  | PyFloat _ => raise TypeError
  | PySeq l =>
      match nth_error l i with
      | Some v => ret v
      | None => raise IndexError
      end
  end.

End Py.
Export Py.

Declare Scope comp_scope.
Delimit Scope comp_scope with comp.
Notation "x <- c ;; k" := (bind c (fun x => k))
  (at level 61, c at next level, right associativity) : comp_scope.
Notation "c ;;; k" := (bind c (fun _ => k))
  (at level 61, right associativity) : comp_scope.
Open Scope comp_scope.

(** [a < b] and [a > b] on floats, as booleans. *)
Definition Rltb (a b : R) : bool := if Rlt_dec a b then true else false.
Definition Rgtb (a b : R) : bool := Rltb b a.

(** [[p for p in l if cond(p)]] where evaluating [cond] may raise: the
    condition is evaluated on the elements in order, and never on an
    empty list. *)
Fixpoint comprehension {A} (cond : A -> Comp bool) (l : list A)
  : Comp (list A) :=
  match l with
  | [] => ret []
  | p :: t =>
      b <- cond p ;;
      t' <- comprehension cond t ;;
      ret (if b then p :: t' else t')
  end.

(* ------------------------------------------------------------------ *)
(** ** numpy and scipy.linalg on small arrays *)

Module Np.

(** [np.max(a)] and [np.min(a)]: numpy raises on a zero-size array. *)
Definition max (l : list R) : Comp R :=
  match l with
  | [] => raise (ValueError "zero-size array to reduction operation maximum which has no identity")
  | a :: t => ret (fold_left Rmax t a)
  end.

Definition min (l : list R) : Comp R :=
  match l with
  | [] => raise (ValueError "zero-size array to reduction operation minimum which has no identity")
  | a :: t => ret (fold_left Rmin t a)
  end.

(** [k * a] for a scalar [k] and a 3-array [a]. *)
Definition scale3 (k : R) (p : vec3) : vec3 :=
  V3 (k * vx p) (k * vy p) (k * vz p).

(** [np.r_[a, s]]: a 3-array followed by a scalar. *)
Definition r_ (p : vec3) (s : R) : vec4 := V4 (vx p) (vy p) (vz p) s.

(** [a[:3]] of a 4-array. *)
Definition first3 (v : vec4) : vec3 := V3 (c0 v) (c1 v) (c2 v).

(** A 4x4 array, by rows. *)
Record mat4 : Type := M4 { row0 : vec4; row1 : vec4; row2 : vec4; row3 : vec4 }.

Definition dot4 (a b : vec4) : R :=
  c0 a * c0 b + c1 a * c1 b + c2 a * c2 b + c3 a * c3 b.

(** [np.dot(m, v)] for a 4x4 array and a 4-array. *)
Definition dot (m : mat4) (v : vec4) : vec4 :=
  V4 (dot4 (row0 m) v) (dot4 (row1 m) v) (dot4 (row2 m) v) (dot4 (row3 m) v).

Definition col (j : vec4 -> R) (m : mat4) : vec4 :=
  V4 (j (row0 m)) (j (row1 m)) (j (row2 m)) (j (row3 m)).

(** [np.dot(a, b)] for two 4x4 arrays. *)
Definition matmul (a b : mat4) : mat4 :=
  let r := fun ra =>
    V4 (dot4 ra (col c0 b)) (dot4 ra (col c1 b))
       (dot4 ra (col c2 b)) (dot4 ra (col c3 b)) in
  M4 (r (row0 a)) (r (row1 a)) (r (row2 a)) (r (row3 a)).

Definition eye : mat4 :=
  M4 (V4 1 0 0 0) (V4 0 1 0 0) (V4 0 0 1 0) (V4 0 0 0 1).

(** *** [scipy.linalg.inv] on a 4x4 array

    Over the reals the inverse is the adjugate divided by the determinant,
    and the call fails ([LinAlgError: singular matrix]) exactly when the
    determinant is zero.  The 2x2 minors of the two upper rows ([s]) and of
    the two lower rows ([k]) give both. *)

Section Inverse.
Variable m : mat4.

Let a00 := c0 (row0 m).
Let a01 := c1 (row0 m).
Let a02 := c2 (row0 m).
Let a03 := c3 (row0 m).
Let a10 := c0 (row1 m).
Let a11 := c1 (row1 m).
Let a12 := c2 (row1 m).
Let a13 := c3 (row1 m).
Let a20 := c0 (row2 m).
Let a21 := c1 (row2 m).
Let a22 := c2 (row2 m).
Let a23 := c3 (row2 m).
Let a30 := c0 (row3 m).
Let a31 := c1 (row3 m).
Let a32 := c2 (row3 m).
Let a33 := c3 (row3 m).

Let s0 := a00 * a11 - a10 * a01.
Let s1 := a00 * a12 - a10 * a02.
Let s2 := a00 * a13 - a10 * a03.
Let s3 := a01 * a12 - a11 * a02.
Let s4 := a01 * a13 - a11 * a03.
Let s5 := a02 * a13 - a12 * a03.

Let k0 := a20 * a31 - a30 * a21.
Let k1 := a20 * a32 - a30 * a22.
Let k2 := a20 * a33 - a30 * a23.
Let k3 := a21 * a32 - a31 * a22.
Let k4 := a21 * a33 - a31 * a23.
Let k5 := a22 * a33 - a32 * a23.

Definition det : R :=
  s0 * k5 - s1 * k4 + s2 * k3 + s3 * k2 - s4 * k1 + s5 * k0.

Definition adjugate : mat4 :=
  M4 (V4 (a11 * k5 - a12 * k4 + a13 * k3)
         (- a01 * k5 + a02 * k4 - a03 * k3)
         (a31 * s5 - a32 * s4 + a33 * s3)
         (- a21 * s5 + a22 * s4 - a23 * s3))
     (V4 (- a10 * k5 + a12 * k2 - a13 * k1)
         (a00 * k5 - a02 * k2 + a03 * k1)
         (- a30 * s5 + a32 * s2 - a33 * s1)
         (a20 * s5 - a22 * s2 + a23 * s1))
     (V4 (a10 * k4 - a11 * k2 + a13 * k0)
         (- a00 * k4 + a01 * k2 - a03 * k0)
         (a30 * s4 - a31 * s2 + a33 * s0)
         (- a20 * s4 + a21 * s2 - a23 * s0))
     (V4 (- a10 * k3 + a11 * k1 - a12 * k0)
         (a00 * k3 - a01 * k1 + a02 * k0)
         (- a30 * s3 + a31 * s1 - a32 * s0)
         (a20 * s3 - a21 * s1 + a22 * s0)).

Definition scale4 (k : R) (v : vec4) : vec4 :=
  V4 (k * c0 v) (k * c1 v) (k * c2 v) (k * c3 v).

Definition inv : Comp mat4 :=
  if Req_dec_T det 0 then raise LinAlgError
  else
    let d := / det in
    ret (M4 (scale4 d (row0 adjugate)) (scale4 d (row1 adjugate))
            (scale4 d (row2 adjugate)) (scale4 d (row3 adjugate))).
End Inverse.

(** [b] is a two-sided inverse of [a]. *)
Definition is_inverse (a b : mat4) : Prop :=
  matmul b a = eye /\ matmul a b = eye.

(** [np.sum(a)]. *)
Definition sum (l : list R) : R := fold_right Rplus 0 l.

End Np.

(* ------------------------------------------------------------------ *)
(** ** The measurement info read by the fit *)

(** The constants of [mne.io.constants.FIFF] that the module names. *)
Module FIFF.
Definition FIFFV_POINT_EXTRA : Z := 4.
Definition FIFFV_COORD_DEVICE : Z := 1.
Definition FIFFV_COORD_HEAD : Z := 4.
End FIFF.

(** One entry of [info['dig']]: the keys [kind] and [r] are the ones read. *)
Record dig_point : Type := DigPoint { kind : Z; r : vec3 }.

(** [info['dev_head_t']]: the keys [from], [to] and [trans]. *)
Record transform : Type :=
  Transform { from : Z; to : Z; trans : Np.mat4 }.

Record Info : Type := MkInfo { dig : list dig_point; dev_head_t : transform }.

(* ------------------------------------------------------------------ *)
(** ** Maxfilter.fit_sphere_to_headshape *)

Module Maxfilter.

(** The condition of the first comprehension:
    [p['kind'] == FIFF.FIFFV_POINT_EXTRA and not
     (p['r'][2] < 0 and p['r'][1] > 0)]. *)
Definition is_head_point (p : dig_point) : bool :=
  Z.eqb (kind p) FIFF.FIFFV_POINT_EXTRA
  && negb (Rltb (vz (r p)) 0 && Rgtb (vy (r p)) 0).

(** [[p['r'] for p in info['dig'] if ...]]. *)
Definition head_points (info : Info) : list vec3 :=
  map r (filter is_head_point (dig info)).

(** [v > lim[0] and v < lim[1]]: [lim[1]] is only read when the first
    comparison holds. *)
Definition between (lim : pyarg) (v : R) : Comp bool :=
  lo <- getitem lim 0 ;;
  if Rgtb v lo then
    hi <- getitem lim 1 ;;
    ret (Rltb v hi)
  else ret false.

(** [if lim is not None: hsp = [p for p in hsp if (p[i] > lim[0] and
    p[i] < lim[1])]], with [coord] the component [p[i]]. *)
Definition cut (lim : option pyarg) (coord : vec3 -> R) (hsp : list vec3)
  : Comp (list vec3) :=
  match lim with
  | None => ret hsp
  | Some l => comprehension (fun p => between l (coord p)) hsp
  end.

(** The point set after the three selections, in meters. *)
Definition select_hsp (info : Info) (ylim zlim : option pyarg)
  : Comp (list vec3) :=
  hsp <- cut ylim vy (head_points info) ;;
  cut zlim vz hsp.

(** [x0 = np.r_[center_init, radius_init]] from the points in millimeters. *)
Definition initial_guess (hsp : list vec3) : Comp vec4 :=
  xmax <- Np.max (map vx hsp) ;;
  xmin <- Np.min (map vx hsp) ;;
  let xradius := (xmax - xmin) / 2 in
  ymax <- Np.max (map vy hsp) ;;
  ymin <- Np.min (map vy hsp) ;;
  let yradius := (ymax - ymin) / 2 in
  let radius_init := (xradius + yradius) / 2 in
  zmax <- Np.max (map vz hsp) ;;
  let center_init := V3 0.0 0.0 (zmax - radius_init) in
  ret (Np.r_ center_init radius_init).

(** [cost_fun = lambda x, hsp:
      np.sum((np.sqrt(np.sum((hsp - x[:3]) ** 2, axis=1)) - x[3]) ** 2)]. *)
Definition cost_fun (x : vec4) (hsp : list vec3) : R :=
  Np.sum
    (map (fun p =>
            (sqrt ((vx p - c0 x) ^ 2 + (vy p - c1 x) ^ 2 + (vz p - c2 x) ^ 2)
             - c3 x) ^ 2)
         hsp).

(** *** The object and the arguments of [build_maxfilter_cmd] *)

(** A [Maxfilter] object: [cmd] is empty until a command is built.
    [logger_info] tells whether its logger passes INFO records. *)
Record Self : Type :=
  MkSelf { proj_code : string; cmd : string; logger_info : bool }.

Definition set_cmd (self : Self) (c : string) : Self :=
  MkSelf (proj_code self) c (logger_info self).

(** [origin]: [None], [False], a string, or something subscripted. *)
Inductive origin_arg : Type :=
| ONone
| OFalse
| OStr (s : string)
| OArr (a : pyarg).

(** [bad]: a string of channels or a list of channel names. *)
Inductive bad_arg : Type :=
| BadStr (s : string)
| BadList (l : list string).

(** [skip]: a string or a list of pairs of floats. *)
Inductive skip_arg : Type :=
| SkipStr (s : string)
| SkipList (l : list (R * R)).

Record Args : Type := MkArgs {
  in_fname : string;
  out_fname : string;
  origin : origin_arg;
  frame : string;
  bad : option bad_arg;
  autobad : string;
  skip : option skip_arg;
  force : bool;
  st : bool;
  st_buflen : pyval;
  st_corr : R;
  mv_trans : option string;
  movecomp : pyval;
  mv_headpos : bool;
  mv_hp : option string;
  mv_hpistep : option R;
  mv_hpisubt : option string;
  hpicons : bool;
  linefreq : option pyval;
  cal : option string;
  ctc : option string;
  mx_args : string;
  maxfilter_bin : string;
  logfile : option string;
  n_threads : option Z
}.

(** The signature's defaults. *)
Definition default_args (in_fname out_fname : string) : Args :=
  {| in_fname := in_fname; out_fname := out_fname;
     origin := OStr "0 0 40"; frame := "head";
     bad := None; autobad := "off"; skip := None; force := false;
     st := false; st_buflen := VFloat 16.0; st_corr := 0.96;
     mv_trans := None; movecomp := VBool false; mv_headpos := false;
     mv_hp := None; mv_hpistep := None; mv_hpisubt := None;
     hpicons := true; linefreq := None; cal := None; ctc := None;
     mx_args := ""; maxfilter_bin := "/neuro/bin/util/maxfilter";
     logfile := None; n_threads := None |}.

(** *** String formatting *)

Definition string_of_Z (z : Z) : string :=
  NilZero.string_of_int (Z.to_int z).

(** ['{:d}'.format(v)]: the code [d] is an integer presentation type;
    a float or a string refuses it. *)
Definition format_d (v : pyval) : Comp string :=
  match v with
  | VInt z => ret (string_of_Z z)
  | VBool b => ret (if b then "1" else "0")%string
  | VFloat _ =>
      raise (ValueError "Unknown format code 'd' for object of type 'float'")
  | VStr _ =>
      raise (ValueError "Unknown format code 'd' for object of type 'str'")
  | VNone => raise TypeError
  end.

(** ['... {.1f} ...'.format(x, ...)] on floats.  The field [{.1f}] has no
    colon, so [.1f] is not a format spec: the field reads the attribute
    [1f] of the next positional argument, and a float has no such
    attribute. *)
Definition format_attr_1f (args : list R) : Comp string :=
  match args with
  | [] => raise IndexError
  | _ :: _ => raise AttributeError
  end.

Definition is_space (c : ascii) : bool :=
  match nat_of_ascii c with
  | 9 | 10 | 11 | 12 | 13 | 32 => true
  | _ => false
  end%nat.

(** [s.split()]: the maximal runs of non-blank characters. *)
Fixpoint split_from (cur : string) (s : string) : list string :=
  match s with
  | EmptyString => if String.eqb cur "" then [] else [cur]
  | String c s' =>
      if is_space c
      then (if String.eqb cur "" then split_from "" s'
            else cur :: split_from "" s')
      else split_from (cur ++ String c "") s'
  end%string.

Definition split (s : string) : list string := split_from "" s.

(** [ch[3:] if ch.startswith('MEG') else ch]. *)
Definition logical_channel (ch : string) : string :=
  if prefix "MEG" ch then substring 3 (String.length ch - 3) ch else ch.

(** [origin[i]] for the values [origin] can hold. *)
Definition origin_item (o : origin_arg) (i : nat) : Comp R :=
  match o with
  | OArr a => getitem a i
  | ONone | OFalse | OStr _ => raise TypeError
  end.

Definition seq_of_vec3 (v : vec3) : pyarg := PySeq [vx v; vy v; vz v].

Section Methods.

(** [scipy.optimize.fmin_powell(func, x0, args=(hsp,), disp=disp)]: the
    minimiser is the library's; the embedding takes it as it comes, as a
    function of all four arguments. *)
Variable fmin_powell :
  (vec4 -> list vec3 -> R) -> vec4 -> list vec3 -> bool -> vec4.

(** [mne.io.Raw(fname).info]: reading the file gives the measurement
    info or raises. *)
Variable Raw : string -> res Info.

(** ['{:.nf}'.format(x)]: the decimal text of a float with [n] digits
    after the point. *)
Variable format_f : nat -> R -> string.

Definition call_fmin_powell (x0 : vec4) (hsp : list vec3) (disp : bool)
  : Comp vec4 :=
  emit (FminPowell x0 hsp disp) ;;;
  ret (fmin_powell cost_fun x0 hsp disp).

(** The checks on [info['dev_head_t']] and the change of frame. *)
Definition to_device (info : Info) (origin_head : vec3) : Comp vec3 :=
  let trans_ := dev_head_t info in
  if negb (Z.eqb (from trans_) FIFF.FIFFV_COORD_DEVICE)
     || negb (Z.eqb (to trans_) FIFF.FIFFV_COORD_HEAD)
  then raise (RuntimeError "device to head transform not found")
  else
    head_to_dev <- Np.inv (trans trans_) ;;
    ret (Np.scale3 1e3
           (Np.first3
              (Np.dot head_to_dev (Np.r_ (Np.scale3 1e-3 origin_head) 1.0)))).

Definition fit_sphere_to_headshape
    (info : Info) (ylim zlim : option pyarg) (verbose : pyval)
  : Comp (R * vec3 * vec3) :=
  hsp <- select_hsp info ylim zlim ;;
  if Nat.eqb (List.length hsp) 0
  then raise (ValueError "No head digitization points found")
  else
    let hsp := map (Np.scale3 1e3) hsp in
    x0 <- initial_guess hsp ;;
    let disp := if truthy verbose then true else false in
    x_opt <- call_fmin_powell x0 hsp disp ;;
    let origin_head := Np.first3 x_opt in
    let radius := c3 x_opt in
    origin_device <- to_device info origin_head ;;
    ret (radius, origin_head, origin_device).

(** [self.logger.info(msg)]. *)
Definition log_info (self : Self) (msg : string) : Comp unit :=
  if logger_info self then emit (LogInfo msg) else ret tt.

(** The branch [if origin is None:] of [build_maxfilter_cmd]; it gives
    the new value of [origin]. *)
Definition estimate_origin (self : Self) (a : Args) : Comp origin_arg :=
  log_info self "Estimating head origin from headshape points.." ;;;
  raw_info <- ([], Raw (in_fname a)) ;;
  fitted <- fit_sphere_to_headshape raw_info (Some (PyFloat 0.070)) None
              VNone ;;
  let '(r_, o_head, o_dev) := fitted in
  m <- format_attr_1f [r_] ;;
  log_info self ("Fitted sphere: r = " ++ m ++ " mm")%string ;;;
  m <- format_attr_1f [vx o_head; vy o_head; vz o_head] ;;
  log_info self ("Origin head coordinates: " ++ m ++ " mm")%string ;;;
  m <- format_attr_1f [vx o_dev; vy o_dev; vz o_dev] ;;
  log_info self ("Origin head coordinates: " ++ m ++ " mm")%string ;;;
  log_info self "[done]" ;;;
  if String.eqb (frame a) "head" then ret (OArr (seq_of_vec3 o_head))
  else if String.eqb (frame a) "device" then ret (OArr (seq_of_vec3 o_dev))
  else ret ONone.

(** The text of the command, as the local variable [cmd] holds it when
    the last line is reached. *)
Definition build_cmd (self : Self) (a : Args) : Comp string :=
  origin_ <- match origin a with
             | ONone => estimate_origin self a
             | o => ret o
             end ;;
  cmd_ <- match origin_ with
          | OFalse =>
              ret (maxfilter_bin a ++ " -f " ++ in_fname a ++ " -o "
                   ++ out_fname a ++ " -v ")%string
          | _ =>
              origin_s <- match origin_ with
                          | OStr s => ret s
                          | _ =>
                              o0 <- origin_item origin_ 0 ;;
                              o1 <- origin_item origin_ 1 ;;
                              o2 <- origin_item origin_ 2 ;;
                              ret (format_f 1 o0 ++ " " ++ format_f 1 o1
                                   ++ " " ++ format_f 1 o2)%string
                          end ;;
              ret (maxfilter_bin a ++ " -f " ++ in_fname a ++ " -o "
                   ++ out_fname a ++ " -frame " ++ frame a ++ " -origin "
                   ++ origin_s ++ " -v ")%string
          end ;;
  let cmd_ :=
    match bad a with
    | None => cmd_
    | Some b =>
        let bad_ := match b with BadStr s => split s | BadList l => l end in
        let bad_logic := map logical_channel bad_ in
        let bad_str := String.concat " " bad_logic in
        (cmd_ ++ "-bad " ++ bad_str ++ " ")%string
    end in
  let cmd_ := (cmd_ ++ "-autobad " ++ autobad a ++ " ")%string in
  let cmd_ :=
    match skip a with
    | None => cmd_
    | Some sk =>
        let skip_ :=
          match sk with
          | SkipStr s => s
          | SkipList l =>
              String.concat " "
                (map (fun s => (format_f 3 (fst s) ++ " "
                                ++ format_f 3 (snd s))%string) l)
          end in
        (cmd_ ++ "-skip " ++ skip_ ++ " ")%string
    end in
  let cmd_ := if force a then (cmd_ ++ "-force ")%string else cmd_ in
  cmd_ <- (if st a then
             let cmd_ := (cmd_ ++ "-st ")%string in
             buflen <- format_d (st_buflen a) ;;
             let cmd_ := (cmd_ ++ " " ++ buflen ++ " ")%string in
             ret (cmd_ ++ "-corr " ++ format_f 4 (st_corr a) ++ " ")%string
           else ret cmd_) ;;
  let cmd_ :=
    match mv_trans a with
    | None => cmd_
    | Some t => (cmd_ ++ "-trans " ++ t ++ " ")%string
    end in
  let cmd_ :=
    if truthy (movecomp a) then
      let cmd_ := (cmd_ ++ "-movecomp ")%string in
      let cmd_ :=
        match movecomp a with
        | VStr "inter" => (cmd_ ++ " inter ")%string
        | _ => cmd_
        end in
      let cmd_ := if mv_headpos a then (cmd_ ++ "-headpos ")%string
                  else cmd_ in
      let cmd_ :=
        match mv_hp a with
        | None => cmd_
        | Some f => (cmd_ ++ "-hp " ++ f ++ " ")%string
        end in
      let cmd_ :=
        match mv_hpisubt a with
        | None => cmd_
        | Some m => (cmd_ ++ "hpisubt " ++ m ++ " ")%string
        end in
      if hpicons a then (cmd_ ++ "-hpicons ")%string else cmd_
    else cmd_ in
  cmd_ <- match linefreq a with
          | None => ret cmd_
          | Some f =>
              lf <- format_d f ;;
              ret (cmd_ ++ "-linefreq " ++ lf ++ " ")%string
          end ;;
  let cmd_ :=
    match cal a with
    | None => cmd_
    | Some f => (cmd_ ++ "-cal " ++ f ++ " ")%string
    end in
  let cmd_ :=
    match ctc a with
    | None => cmd_
    | Some f => (cmd_ ++ "-ctc " ++ f ++ " ")%string
    end in
  let cmd_ := (cmd_ ++ mx_args a)%string in
  let cmd_ :=
    match logfile a with
    | Some (String c f) => (cmd_ ++ " | tee " ++ String c f)%string
    | _ => cmd_
    end in
  ret cmd_.

(** [build_maxfilter_cmd]: the method returns [None]; its effect is the
    assignment [self.cmd = cmd] of the last line, which an exception
    raised before it skips. *)
Definition build_maxfilter_cmd (self : Self) (a : Args)
  : Comp unit * Self :=
  match build_cmd self a with
  | (t, Ok c) => ((t, Ok tt), set_cmd self c)
  | (t, Raise e) => ((t, Raise e), self)
  end.

End Methods.

End Maxfilter.

(* ------------------------------------------------------------------ *)
(** ** The selection of points as the specification words it *)

Module Spec.

(** A point tagged "extra". *)
Definition is_extra (p : dig_point) : bool :=
  Z.eqb (kind p) FIFF.FIFFV_POINT_EXTRA.

(** The implicit exclusion rule: z < 0 and y > 0. *)
Definition excluded (p : vec3) : bool := Rltb (vz p) 0 && Rltb 0 (vy p).

(** An AxisRange retains a coordinate strictly between min and max. *)
Definition strictly_between (range : R * R) (v : R) : bool :=
  Rltb (fst range) v && Rltb v (snd range).

Definition range_filter (range : option (R * R)) (coord : vec3 -> R)
    (l : list vec3) : list vec3 :=
  match range with
  | None => l
  | Some rg => filter (fun p => strictly_between rg (coord p)) l
  end.

(** Step 1, one selection after the other. *)
Definition fitting_points (d : list dig_point) (y_range z_range : option (R * R))
  : list vec3 :=
  let extra := map r (filter is_extra d) in
  let kept := filter (fun p => negb (excluded p)) extra in
  let in_y := range_filter y_range vy kept in
  range_filter z_range vz in_y.

(** Meters to millimeters. *)
Definition to_mm (p : vec3) : vec3 :=
  V3 (1000 * vx p) (1000 * vy p) (1000 * vz p).

(** Euclidean distance of two points. *)
Definition dist (p c : vec3) : R :=
  sqrt ((vx p - vx c) ^ 2 + (vy p - vy c) ^ 2 + (vz p - vz c) ^ 2).

(** The point lies exactly on the sphere of center [c] and radius [rad]. *)
Definition on_sphere (c : vec3) (rad : R) (p : vec3) : Prop := dist p c = rad.

(** The points lie on the sphere of center [c] and radius [rad] and on no
    other sphere. *)
Definition determines (pts : list vec3) (c : vec3) (rad : R) : Prop :=
  forall c' rad',
    (forall p, In p pts -> on_sphere c' rad' p) -> c' = c /\ rad' = rad.

Definition is_max (m : R) (l : list R) : Prop :=
  In m l /\ forall v, In v l -> v <= m.

Definition is_min (m : R) (l : list R) : Prop :=
  In m l /\ forall v, In v l -> m <= v.

End Spec.

(** The same measurement info without the digitization points that the
    implicit exclusion rule names. *)
Definition drop_excluded (info : Info) : Info :=
  MkInfo (filter (fun p => negb (Spec.excluded (r p))) (dig info))
         (dev_head_t info).

(** A matrix that has an inverse. *)
Definition invertible (m : Np.mat4) : Prop := exists mi, Np.is_inverse m mi.

(** A computation that leaves no trace and raises, if at all, only an
    exception of the class [P]. *)
Definition quiet {A} (P : exn -> Prop) (c : Comp A) : Prop :=
  trace c = [] /\ forall e, outcome c = Raise e -> P e.

(** The exceptions of a failed subscript. *)
Definition subscript_error (e : exn) : Prop := e = TypeError \/ e = IndexError.

(** A computation that ends in an exception. *)
Definition raises {A} (c : Comp A) : Prop := exists e, outcome c = Raise e.

(** The error of ['{:d}'.format(x)] for a float [x]. *)
Definition format_code_error : exn :=
  ValueError "Unknown format code 'd' for object of type 'float'".

(** The values of [origin] with which the command line up to [-v] is
    formatted without an exception: [False], a string, or a sequence of at
    least three floats. *)
Definition origin_formats (o : Maxfilter.origin_arg) : Prop :=
  match o with
  | Maxfilter.OFalse | Maxfilter.OStr _ => True
  | Maxfilter.OArr (PySeq (_ :: _ :: _ :: _)) => True
  | _ => False
  end.

(** A (min, max) pair as the caller passes it: a tuple of length 2. *)
Definition range_arg (range : option (R * R)) : option pyarg :=
  match range with
  | None => None
  | Some (lo, hi) => Some (PySeq [lo; hi])
  end.

(** The tags of [info['dev_head_t']] say device to head. *)
Definition device_to_head (info : Info) : Prop :=
  from (dev_head_t info) = FIFF.FIFFV_COORD_DEVICE /\
  to (dev_head_t info) = FIFF.FIFFV_COORD_HEAD.

(* ------------------------------------------------------------------ *)
(** ** Concrete inputs *)

Module Example.

Definition extra (x y z : R) : dig_point :=
  DigPoint FIFF.FIFFV_POINT_EXTRA (V3 x y z).

(** The six vertices of the octahedron of radius 50 mm around
    (0, 0, 100 mm), in meters. *)
Definition octahedron : list dig_point :=
  [ extra 0.05 0 0.1; extra (-0.05) 0 0.1;
    extra 0 0.05 0.1; extra 0 (-0.05) 0.1;
    extra 0 0 0.15; extra 0 0 0.05 ].

Definition translation (tx ty tz : R) : Np.mat4 :=
  Np.M4 (V4 1 0 0 tx) (V4 0 1 0 ty) (V4 0 0 1 tz) (V4 0 0 0 1).

(** Head frame = device frame shifted by (1, -2, 40) mm. *)
Definition shift : transform :=
  Transform FIFF.FIFFV_COORD_DEVICE FIFF.FIFFV_COORD_HEAD
            (translation 0.001 (-0.002) 0.04).

(** The same matrix tagged the other way round. *)
Definition shift_head_to_device : transform :=
  Transform FIFF.FIFFV_COORD_HEAD FIFF.FIFFV_COORD_DEVICE
            (translation 0.001 (-0.002) 0.04).

Definition octahedron_info : Info := MkInfo octahedron shift.


Definition octahedron_wrong_tags : Info := MkInfo octahedron shift_head_to_device.

(** A nose point (z < 0, y > 0) and a cardinal point: nothing to fit. *)
Definition no_head_points : list dig_point :=
  [ extra 0 0.09 (-0.02); DigPoint 1 (V3 0 0.1 0) ].

Definition empty_info : Info := MkInfo no_head_points shift.

Definition empty_wrong_tags : Info := MkInfo no_head_points shift_head_to_device.

(** A minimiser that returns its starting point. *)
Definition keep_start
  : (vec4 -> list vec3 -> R) -> vec4 -> list vec3 -> bool -> vec4 :=
  fun _ x0 _ _ => x0.

Definition read_octahedron : string -> res Info := fun _ => Ok octahedron_info.

Definition no_digits : nat -> R -> string := fun _ _ => "?"%string.

Definition fresh : Maxfilter.Self := Maxfilter.MkSelf "MEG_project" "" false.

(** [build_maxfilter_cmd(in, out, origin=None)]. *)
Definition args_origin_none : Maxfilter.Args :=
  let a := Maxfilter.default_args "in.fif" "out.fif" in
  Maxfilter.MkArgs
    (Maxfilter.in_fname a) (Maxfilter.out_fname a) Maxfilter.ONone
    (Maxfilter.frame a) (Maxfilter.bad a) (Maxfilter.autobad a)
    (Maxfilter.skip a) (Maxfilter.force a) (Maxfilter.st a)
    (Maxfilter.st_buflen a) (Maxfilter.st_corr a) (Maxfilter.mv_trans a)
    (Maxfilter.movecomp a) (Maxfilter.mv_headpos a) (Maxfilter.mv_hp a)
    (Maxfilter.mv_hpistep a) (Maxfilter.mv_hpisubt a) (Maxfilter.hpicons a)
    (Maxfilter.linefreq a) (Maxfilter.cal a) (Maxfilter.ctc a)
    (Maxfilter.mx_args a) (Maxfilter.maxfilter_bin a) (Maxfilter.logfile a)
    (Maxfilter.n_threads a).

(** [build_maxfilter_cmd(in, out, st=True)] with [origin] as given. *)
Definition args_st (o : Maxfilter.origin_arg) : Maxfilter.Args :=
  let a := Maxfilter.default_args "in.fif" "out.fif" in
  Maxfilter.MkArgs
    (Maxfilter.in_fname a) (Maxfilter.out_fname a) o
    (Maxfilter.frame a) (Maxfilter.bad a) (Maxfilter.autobad a)
    (Maxfilter.skip a) (Maxfilter.force a) true
    (Maxfilter.st_buflen a) (Maxfilter.st_corr a) (Maxfilter.mv_trans a)
    (Maxfilter.movecomp a) (Maxfilter.mv_headpos a) (Maxfilter.mv_hp a)
    (Maxfilter.mv_hpistep a) (Maxfilter.mv_hpisubt a) (Maxfilter.hpicons a)
    (Maxfilter.linefreq a) (Maxfilter.cal a) (Maxfilter.ctc a)
    (Maxfilter.mx_args a) (Maxfilter.maxfilter_bin a) (Maxfilter.logfile a)
    (Maxfilter.n_threads a).

End Example.

(* ------------------------------------------------------------------ *)
(** ** Maxfilter.__init__ and Maxfilter.submit_to_isis *)

Module Cluster.

(** The exceptions of the constructor and of the submission. *)
Inductive error : Type :=
| DBError (msg : string)
| NameError (msg : string)
| ValueError (msg : string)
| RuntimeError (msg : string).

(** What the submission does besides returning: the shell commands it
    runs with [os.system], the lines it prints, and the records it hands
    to the logger. *)
Inductive io : Type :=
| System (command : string)
| Print (line : string)
| Info (msg : string).

(** [n_jobs]: an int or a float. *)
Inductive number : Type :=
| NInt (z : Z)
| NFloat (x : R).

(** [n > k] and [n < k] for an integer literal [k]. *)
Definition gt (n : number) (k : Z) : bool :=
  match n with
  | NInt z => Z.ltb k z
  | NFloat x => Rltb (IZR k) x
  end.

Definition lt (n : number) (k : Z) : bool :=
  match n with
  | NInt z => Z.ltb z k
  | NFloat x => Rltb x (IZR k)
  end.

(** [type(n) is int]. *)
Definition is_int (n : number) : bool :=
  match n with
  | NInt _ => true
  | NFloat _ => false
  end.

(** The string literal of the default script: the backslash joins the two
    source lines, and the indentation of the second one is part of it. *)
Definition default_submit_script : string :=
  "            /usr/local/common/meeg-cfin/configurations/bin/submit_to_isis".

Definition newline : string := String "010" "".

(** [self.logger.info(msg)], as a list of [io]. *)
Definition log (self : Maxfilter.Self) (msg : string) : list io :=
  if Maxfilter.logger_info self then [Info msg] else [].

(** The logger named ['__name__']: the one object all instances share.
    [handlers] counts the stdout handlers added to it. *)
Record Logger : Type := MkLogger { handlers : nat; info_enabled : bool }.

(** The lines one [logger.info(msg)] writes: one per handler. *)
Definition written (lg : Logger) (msg : string) : list string :=
  if info_enabled lg then repeat msg (handlers lg) else [].

Section Init.

(** [os.path.exists]. *)
Variable path_exists : string -> bool.

(** [Maxfilter(proj_code, verbose)]: the new object, or [DBError]; and the
    shared logger after the call. *)
Definition init (lg : Logger) (proj_code : string) (verbose : bool)
  : (error + Maxfilter.Self) * Logger :=
  if negb (path_exists ("/projects/" ++ proj_code))
  then (inl (DBError "No such project!"), lg)
  else (inr (Maxfilter.MkSelf proj_code "" verbose),
        MkLogger (S (handlers lg)) verbose).

(** Constructing one object after the other; a failed construction is
    caught and skipped. *)
Fixpoint init_all (lg : Logger) (reqs : list (string * bool)) : Logger :=
  match reqs with
  | [] => lg
  | (proj_code, verbose) :: rest =>
      init_all (snd (init lg proj_code verbose)) rest
  end.

End Init.

Section Submit.

(** The machine the shell commands run on, and [os.system]: the wait
    status of the command and the machine after it. *)
Variable World : Type.
Variable os_system : World -> string -> Z * World.

(** [submit_to_isis(n_jobs, fake, submit_script)]: what was done, the
    exception if one was raised, and the machine afterwards. *)
Definition submit_to_isis (self : Maxfilter.Self) (n_jobs : number)
    (fake : bool) (submit_script : option string) (w : World)
  : (list io * option error) * World :=
  if String.eqb (Maxfilter.cmd self) ""
  then (([], Some (NameError "cmd to submit is not defined yet")), w)
  else if gt n_jobs 12
  then (([], Some (ValueError "isis only has 12 cores!")), w)
  else if lt n_jobs 1 || negb (is_int n_jobs)
  then (([], Some (ValueError "number of jobs must be a positive integer!")), w)
  else
    let submit_script :=
      match submit_script with
      | None => default_submit_script
      | Some s => s
      end in
    let probe := (submit_script ++ " 2>&1 > /dev/null")%string in
    let (status, w1) := os_system w probe in
    if Z.eqb (Z.shiftr status 8) 127
    then (([System probe],
           Some (NameError ("submit script " ++ submit_script ++ " not found"))),
          w1)
    else
      let t := [System probe]
               ++ log self ("Command to submit:" ++ newline
                            ++ Maxfilter.cmd self) in
      match n_jobs with
      | NFloat _ =>
          ((t, Some (ValueError
                       "Unknown format code 'd' for object of type 'float'")),
           w1)
      | NInt z =>
          let submit_cmd :=
            String.concat " "
              [submit_script; Maxfilter.string_of_Z z; Maxfilter.cmd self] in
          if negb fake then
            let (st, w2) := os_system w1 submit_cmd in
            if negb (Z.eqb st 0)
            then ((t ++ [System submit_cmd],
                   Some (RuntimeError
                           ("qsub returned non-zero exit status "
                            ++ Maxfilter.string_of_Z st))),
                  w2)
            else ((t ++ [System submit_cmd], None), w2)
          else
            ((t ++ [Print "Fake run, nothing executed. The command built is:";
                    Print submit_cmd]
                ++ log self "Nothing executed.",
              None),
             w1)
      end.

End Submit.

End Cluster.

(* ------------------------------------------------------------------ *)
(** ** Notions used by the further properties *)



(** A 4x4 array with a row of zeros or a column of zeros. *)
Definition has_zero_line (m : Np.mat4) : Prop :=
  Np.row0 m = V4 0 0 0 0 \/ Np.row1 m = V4 0 0 0 0 \/
  Np.row2 m = V4 0 0 0 0 \/ Np.row3 m = V4 0 0 0 0 \/
  Np.col c0 m = V4 0 0 0 0 \/ Np.col c1 m = V4 0 0 0 0 \/
  Np.col c2 m = V4 0 0 0 0 \/ Np.col c3 m = V4 0 0 0 0.

(** A value that ['{:d}'] formats: an int or a bool. *)
Definition formats_as_d (v : pyval) : Prop :=
  match v with
  | VInt _ | VBool _ => True
  | _ => False
  end.

(** [s] begins with [p]. *)
Definition begins_with (p s : string) : Prop := exists rest, s = (p ++ rest)%string.

(** The arguments [a] with other values for the options of the MaxST
    block. *)
Definition with_st_options (a : Maxfilter.Args) (buflen : pyval) (corr : R)
  : Maxfilter.Args :=
  Maxfilter.MkArgs
    (Maxfilter.in_fname a) (Maxfilter.out_fname a) (Maxfilter.origin a)
    (Maxfilter.frame a) (Maxfilter.bad a) (Maxfilter.autobad a)
    (Maxfilter.skip a) (Maxfilter.force a) (Maxfilter.st a)
    buflen corr (Maxfilter.mv_trans a)
    (Maxfilter.movecomp a) (Maxfilter.mv_headpos a) (Maxfilter.mv_hp a)
    (Maxfilter.mv_hpistep a) (Maxfilter.mv_hpisubt a) (Maxfilter.hpicons a)
    (Maxfilter.linefreq a) (Maxfilter.cal a) (Maxfilter.ctc a)
    (Maxfilter.mx_args a) (Maxfilter.maxfilter_bin a) (Maxfilter.logfile a)
    (Maxfilter.n_threads a).

(** The arguments [a] with other values for the options of the movement
    compensation block. *)
Definition with_movecomp_options (a : Maxfilter.Args) (headpos : bool)
    (hp hpisubt : option string) (hpicons : bool) : Maxfilter.Args :=
  Maxfilter.MkArgs
    (Maxfilter.in_fname a) (Maxfilter.out_fname a) (Maxfilter.origin a)
    (Maxfilter.frame a) (Maxfilter.bad a) (Maxfilter.autobad a)
    (Maxfilter.skip a) (Maxfilter.force a) (Maxfilter.st a)
    (Maxfilter.st_buflen a) (Maxfilter.st_corr a) (Maxfilter.mv_trans a)
    (Maxfilter.movecomp a) headpos hp
    (Maxfilter.mv_hpistep a) hpisubt hpicons
    (Maxfilter.linefreq a) (Maxfilter.cal a) (Maxfilter.ctc a)
    (Maxfilter.mx_args a) (Maxfilter.maxfilter_bin a) (Maxfilter.logfile a)
    (Maxfilter.n_threads a).

(** The arguments [a] with other values for [mv_hpistep] and [n_threads]. *)
Definition with_hpistep_threads (a : Maxfilter.Args) (hpistep : option R)
    (threads : option Z) : Maxfilter.Args :=
  Maxfilter.MkArgs
    (Maxfilter.in_fname a) (Maxfilter.out_fname a) (Maxfilter.origin a)
    (Maxfilter.frame a) (Maxfilter.bad a) (Maxfilter.autobad a)
    (Maxfilter.skip a) (Maxfilter.force a) (Maxfilter.st a)
    (Maxfilter.st_buflen a) (Maxfilter.st_corr a) (Maxfilter.mv_trans a)
    (Maxfilter.movecomp a) (Maxfilter.mv_headpos a) (Maxfilter.mv_hp a)
    hpistep (Maxfilter.mv_hpisubt a) (Maxfilter.hpicons a)
    (Maxfilter.linefreq a) (Maxfilter.cal a) (Maxfilter.ctc a)
    (Maxfilter.mx_args a) (Maxfilter.maxfilter_bin a) (Maxfilter.logfile a)
    threads.

(** *** The stages of [build_maxfilter_cmd]

    The body of the method, cut at the places where it can raise: the
    origin, the head of the command, the options up to MaxST, the options
    up to the line frequency, and the rest. *)

(** [' inter '] is appended when [movecomp == 'inter']. *)
Definition inter_option (v : pyval) (cmd_ : string) : string :=
  match v with
  | VStr "inter" => (cmd_ ++ " inter ")%string
  | _ => cmd_
  end.

Section Stages.

Variable fmin_powell :
  (vec4 -> list vec3 -> R) -> vec4 -> list vec3 -> bool -> vec4.
Variable Raw : string -> res Info.
Variable format_f : nat -> R -> string.

Definition origin_stage (self : Maxfilter.Self) (a : Maxfilter.Args)
  : Comp Maxfilter.origin_arg :=
  match Maxfilter.origin a with
  | Maxfilter.ONone => Maxfilter.estimate_origin fmin_powell Raw self a
  | o => ret o
  end.

Definition head_stage (a : Maxfilter.Args) (origin_ : Maxfilter.origin_arg)
  : Comp string :=
  match origin_ with
  | Maxfilter.OFalse =>
      ret (Maxfilter.maxfilter_bin a ++ " -f " ++ Maxfilter.in_fname a
           ++ " -o " ++ Maxfilter.out_fname a ++ " -v ")%string
  | _ =>
      origin_s <- match origin_ with
                  | Maxfilter.OStr s => ret s
                  | _ =>
                      o0 <- Maxfilter.origin_item origin_ 0 ;;
                      o1 <- Maxfilter.origin_item origin_ 1 ;;
                      o2 <- Maxfilter.origin_item origin_ 2 ;;
                      ret (format_f 1 o0 ++ " " ++ format_f 1 o1
                           ++ " " ++ format_f 1 o2)%string
                  end ;;
      ret (Maxfilter.maxfilter_bin a ++ " -f " ++ Maxfilter.in_fname a
           ++ " -o " ++ Maxfilter.out_fname a ++ " -frame "
           ++ Maxfilter.frame a ++ " -origin " ++ origin_s ++ " -v ")%string
  end.

(** [-bad], [-autobad], [-skip], [-force]. *)
Definition first_options (a : Maxfilter.Args) (cmd_ : string) : string :=
  let cmd_ :=
    match Maxfilter.bad a with
    | None => cmd_
    | Some b =>
        let bad_ := match b with
                    | Maxfilter.BadStr s => Maxfilter.split s
                    | Maxfilter.BadList l => l
                    end in
        let bad_logic := map Maxfilter.logical_channel bad_ in
        let bad_str := String.concat " " bad_logic in
        (cmd_ ++ "-bad " ++ bad_str ++ " ")%string
    end in
  let cmd_ := (cmd_ ++ "-autobad " ++ Maxfilter.autobad a ++ " ")%string in
  let cmd_ :=
    match Maxfilter.skip a with
    | None => cmd_
    | Some sk =>
        let skip_ :=
          match sk with
          | Maxfilter.SkipStr s => s
          | Maxfilter.SkipList l =>
              String.concat " "
                (map (fun s => (format_f 3 (fst s) ++ " "
                                ++ format_f 3 (snd s))%string) l)
          end in
        (cmd_ ++ "-skip " ++ skip_ ++ " ")%string
    end in
  if Maxfilter.force a then (cmd_ ++ "-force ")%string else cmd_.

(** [-st], the buffer length and [-corr]. *)
Definition st_stage (a : Maxfilter.Args) (cmd_ : string) : Comp string :=
  if Maxfilter.st a then
    let cmd_ := (cmd_ ++ "-st ")%string in
    buflen <- Maxfilter.format_d (Maxfilter.st_buflen a) ;;
    let cmd_ := (cmd_ ++ " " ++ buflen ++ " ")%string in
    ret (cmd_ ++ "-corr " ++ format_f 4 (Maxfilter.st_corr a) ++ " ")%string
  else ret cmd_.

(** [-trans] and the movement compensation block. *)
Definition movement_options (a : Maxfilter.Args) (cmd_ : string) : string :=
  let cmd_ :=
    match Maxfilter.mv_trans a with
    | None => cmd_
    | Some t => (cmd_ ++ "-trans " ++ t ++ " ")%string
    end in
  if truthy (Maxfilter.movecomp a) then
    let cmd_ := (cmd_ ++ "-movecomp ")%string in
    let cmd_ := inter_option (Maxfilter.movecomp a) cmd_ in
    let cmd_ := if Maxfilter.mv_headpos a then (cmd_ ++ "-headpos ")%string
                else cmd_ in
    let cmd_ :=
      match Maxfilter.mv_hp a with
      | None => cmd_
      | Some f => (cmd_ ++ "-hp " ++ f ++ " ")%string
      end in
    let cmd_ :=
      match Maxfilter.mv_hpisubt a with
      | None => cmd_
      | Some m => (cmd_ ++ "hpisubt " ++ m ++ " ")%string
      end in
    if Maxfilter.hpicons a then (cmd_ ++ "-hpicons ")%string else cmd_
  else cmd_.

(** [-linefreq]. *)
Definition linefreq_stage (a : Maxfilter.Args) (cmd_ : string) : Comp string :=
  match Maxfilter.linefreq a with
  | None => ret cmd_
  | Some f =>
      lf <- Maxfilter.format_d f ;;
      ret (cmd_ ++ "-linefreq " ++ lf ++ " ")%string
  end.

(** [-cal], [-ctc], the additional arguments and the log file. *)
Definition last_options (a : Maxfilter.Args) (cmd_ : string) : string :=
  let cmd_ :=
    match Maxfilter.cal a with
    | None => cmd_
    | Some f => (cmd_ ++ "-cal " ++ f ++ " ")%string
    end in
  let cmd_ :=
    match Maxfilter.ctc a with
    | None => cmd_
    | Some f => (cmd_ ++ "-ctc " ++ f ++ " ")%string
    end in
  let cmd_ := (cmd_ ++ Maxfilter.mx_args a)%string in
  match Maxfilter.logfile a with
  | Some (String c f) => (cmd_ ++ " | tee " ++ String c f)%string
  | _ => cmd_
  end.

End Stages.

(** The start of every command: the binary, the input and the output. *)
Definition command_head (a : Maxfilter.Args) : string :=
  (Maxfilter.maxfilter_bin a ++ " -f " ++ Maxfilter.in_fname a ++ " -o "
   ++ Maxfilter.out_fname a)%string.

(** A transform tagged device to head that flattens z: no inverse. *)
Definition flattening : transform :=
  Transform FIFF.FIFFV_COORD_DEVICE FIFF.FIFFV_COORD_HEAD
    (Np.M4 (V4 1 0 0 0) (V4 0 1 0 0) (V4 0 0 0 0) (V4 0 0 0 1)).


(** A disk on which every project directory exists. *)
Definition every_project : string -> bool := fun _ => true.

(** A machine with nothing to remember, on which every command ends with
    status 0. *)
Definition always_zero : unit -> string -> Z * unit := fun w _ => (0%Z, w).

(* ------------------------------------------------------------------ *)
(** ** Properties *)

Lemma inv_is_inverse (m mi : Np.mat4) :
  Np.inv m = ret mi -> Np.is_inverse m mi.
Proof.
  unfold Np.inv. destruct (Req_dec_T (Np.det m) 0) as [|Hd]; [discriminate|].
  intros H. injection H as <-.
  assert (Hu : / Np.det m * Np.det m = 1) by now apply Rinv_l.
  revert Hu. generalize (/ Np.det m). intros u Hu. clear Hd.
  destruct m as [[a b c d] [e f g h] [i j k l] [mm n o p]].
  unfold Np.det in Hu. cbn in Hu.
  split; unfold Np.matmul, Np.eye, Np.adjugate, Np.scale4, Np.dot4, Np.col; cbn;
  repeat f_equal; first [ ring | rewrite <- Hu; ring ].
Qed.

(** *** Computations *)

Lemma bind_ret_l {A B} (a : A) (k : A -> Comp B) : bind (ret a) k = k a.
Proof. unfold bind, ret. now destruct (k a). Qed.

Lemma bind_raise {A B} (e : exn) (k : A -> Comp B) :
  bind (raise e) k = raise e.
Proof. reflexivity. Qed.

Lemma comprehension_pure {A} (cond : A -> Comp bool) (f : A -> bool) l :
  (forall p, cond p = ret (f p)) ->
  comprehension cond l = ret (filter f l).
Proof.
  intros Hc. induction l as [|p t IH]; cbn [comprehension filter].
  - reflexivity.
  - rewrite Hc, bind_ret_l, IH, bind_ret_l. reflexivity.
Qed.

Lemma filter_twice {A} (f : A -> bool) l : filter f (filter f l) = filter f l.
Proof.
  induction l as [|p t IH]; cbn; [reflexivity|].
  destruct (f p) eqn:E; cbn; [rewrite E, IH|]; auto.
Qed.

(** *** The range cuts *)

Lemma between_pair lo hi v :
  Maxfilter.between (PySeq [lo; hi]) v = ret (Spec.strictly_between (lo, hi) v).
Proof.
  unfold Maxfilter.between, Spec.strictly_between, Rgtb. cbn [getitem nth_error fst snd].
  rewrite bind_ret_l. destruct (Rltb lo v); cbn [andb]; [now rewrite bind_ret_l|reflexivity].
Qed.

Lemma cut_range range coord hsp :
  Maxfilter.cut (range_arg range) coord hsp = ret (Spec.range_filter range coord hsp).
Proof.
  destruct range as [[lo hi]|]; cbn; [|reflexivity].
  apply comprehension_pure. intros p. apply between_pair.
Qed.

Lemma head_points_split info :
  Maxfilter.head_points info =
  filter (fun p => negb (Spec.excluded p)) (map r (filter Spec.is_extra (dig info))).
Proof.
  unfold Maxfilter.head_points. induction (dig info) as [|p t IH]; cbn; [reflexivity|].
  unfold Maxfilter.is_head_point at 1, Spec.is_extra at 1.
  destruct (Z.eqb (kind p) FIFF.FIFFV_POINT_EXTRA); cbn; [|exact IH].
  unfold Spec.excluded at 1, Rgtb.
  destruct (Rltb (vz (r p)) 0 && Rltb 0 (vy (r p))); cbn; now rewrite IH.
Qed.

Lemma select_hsp_spec info y_range z_range :
  Maxfilter.select_hsp info (range_arg y_range) (range_arg z_range) =
  ret (Spec.fitting_points (dig info) y_range z_range).
Proof.
  unfold Maxfilter.select_hsp, Spec.fitting_points.
  rewrite cut_range, bind_ret_l, cut_range, head_points_split. reflexivity.
Qed.

(** *** [np.max] and [np.min] *)

Lemma fold_max_is_max t : forall a, Spec.is_max (fold_left Rmax t a) (a :: t).
Proof.
  induction t as [|b t IH]; intros a; cbn [fold_left].
  - split; [now left|]. intros v [<-|[]]. apply Rle_refl.
  - destruct (IH (Rmax a b)) as [Hin Hub]. split.
    + destruct Hin as [Hm|Hin]; [|now right; right].
      rewrite <- Hm. unfold Rmax. destruct (Rle_dec a b); [right|]; now left.
    + intros v [<-|[<-|Hv]].
      * eapply Rle_trans; [apply Rmax_l|apply Hub; now left].
      * eapply Rle_trans; [apply Rmax_r|apply Hub; now left].
      * apply Hub. now right.
Qed.

Lemma fold_min_is_min t : forall a, Spec.is_min (fold_left Rmin t a) (a :: t).
Proof.
  induction t as [|b t IH]; intros a; cbn [fold_left].
  - split; [now left|]. intros v [<-|[]]. apply Rle_refl.
  - destruct (IH (Rmin a b)) as [Hin Hlb]. split.
    + destruct Hin as [Hm|Hin]; [|now right; right].
      rewrite <- Hm. unfold Rmin. destruct (Rle_dec a b); [|right]; now left.
    + intros v [<-|[<-|Hv]].
      * eapply Rle_trans; [apply Hlb; now left|apply Rmin_l].
      * eapply Rle_trans; [apply Hlb; now left|apply Rmin_r].
      * apply Hlb. now right.
Qed.

Lemma np_max_nonempty l :
  l <> [] -> exists m, Np.max l = ret m /\ Spec.is_max m l.
Proof.
  destruct l as [|a t]; [congruence|]. intros _.
  exists (fold_left Rmax t a). split; [reflexivity|apply fold_max_is_max].
Qed.

Lemma np_min_nonempty l :
  l <> [] -> exists m, Np.min l = ret m /\ Spec.is_min m l.
Proof.
  destruct l as [|a t]; [congruence|]. intros _.
  exists (fold_left Rmin t a). split; [reflexivity|apply fold_min_is_min].
Qed.

Lemma map_nonempty {A B} (f : A -> B) l : l <> [] -> map f l <> [].
Proof. destruct l; [congruence|discriminate]. Qed.

(** *** The starting point *)

Lemma initial_guess_nonempty hsp :
  hsp <> [] ->
  exists xmax xmin ymax ymin zmax,
    Spec.is_max xmax (map vx hsp) /\ Spec.is_min xmin (map vx hsp) /\
    Spec.is_max ymax (map vy hsp) /\ Spec.is_min ymin (map vy hsp) /\
    Spec.is_max zmax (map vz hsp) /\
    let radius_init := ((xmax - xmin) / 2 + (ymax - ymin) / 2) / 2 in
    Maxfilter.initial_guess hsp = ret (V4 0 0 (zmax - radius_init) radius_init).
Proof.
  intros Hne. unfold Maxfilter.initial_guess.
  destruct (np_max_nonempty (map vx hsp)) as (xmax & -> & Hxmax); [now apply map_nonempty|].
  destruct (np_min_nonempty (map vx hsp)) as (xmin & -> & Hxmin); [now apply map_nonempty|].
  destruct (np_max_nonempty (map vy hsp)) as (ymax & -> & Hymax); [now apply map_nonempty|].
  destruct (np_min_nonempty (map vy hsp)) as (ymin & -> & Hymin); [now apply map_nonempty|].
  destruct (np_max_nonempty (map vz hsp)) as (zmax & -> & Hzmax); [now apply map_nonempty|].
  exists xmax, xmin, ymax, ymin, zmax. repeat (split; [assumption|]).
  cbv zeta. rewrite !bind_ret_l. unfold Np.r_, ret. cbn [vx vy vz].
  do 2 f_equal. f_equal; lra.
Qed.

Lemma scale3_to_mm p : Np.scale3 1e3 p = Spec.to_mm p.
Proof. unfold Np.scale3, Spec.to_mm. f_equal; lra. Qed.

Lemma map_scale3_to_mm hsp : map (Np.scale3 1e3) hsp = map Spec.to_mm hsp.
Proof. apply map_ext, scale3_to_mm. Qed.

(** *** The change of frame *)

Lemma to_device_wrong_tags info origin_head :
  ~ device_to_head info ->
  Maxfilter.to_device info origin_head =
  raise (RuntimeError "device to head transform not found").
Proof.
  intros Hn. unfold Maxfilter.to_device.
  destruct (Z.eqb_spec (from (dev_head_t info)) FIFF.FIFFV_COORD_DEVICE) as [Hf|Hf];
    [|reflexivity].
  destruct (Z.eqb_spec (to (dev_head_t info)) FIFF.FIFFV_COORD_HEAD) as [Ht|Ht];
    [|reflexivity].
  exfalso. apply Hn. now split.
Qed.

Lemma to_device_tags_ok info origin_head :
  device_to_head info ->
  Maxfilter.to_device info origin_head =
  (head_to_dev <- Np.inv (trans (dev_head_t info)) ;;
   ret (Np.scale3 1e3
          (Np.first3
             (Np.dot head_to_dev (Np.r_ (Np.scale3 1e-3 origin_head) 1.0))))).
Proof.
  intros [Hf Ht]. unfold Maxfilter.to_device. rewrite Hf, Ht, !Z.eqb_refl.
  reflexivity.
Qed.

Lemma inv_nonsingular m :
  Np.det m <> 0 -> exists mi, Np.inv m = ret mi /\ Np.is_inverse m mi.
Proof.
  intros Hd. unfold Np.inv at 1.
  destruct (Req_dec_T (Np.det m) 0) as [|_]; [contradiction|].
  eexists. split; [reflexivity|].
  apply inv_is_inverse. unfold Np.inv.
  destruct (Req_dec_T (Np.det m) 0); [contradiction|reflexivity].
Qed.

Lemma inv_outcome m :
  (exists mi, Np.inv m = ret mi) \/ Np.inv m = raise LinAlgError.
Proof.
  unfold Np.inv. destruct (Req_dec_T (Np.det m) 0); [now right|left; eauto].
Qed.

(** The returned device-frame origin, written with the inverse [mi] and
    the head-frame origin [o] in millimeters. *)
Lemma to_device_value info o :
  device_to_head info ->
  Np.det (trans (dev_head_t info)) <> 0 ->
  exists mi,
    Np.is_inverse (trans (dev_head_t info)) mi /\
    Maxfilter.to_device info o =
    ret (let h := Np.dot mi (V4 (vx o / 1000) (vy o / 1000) (vz o / 1000) 1) in
         V3 (1000 * c0 h) (1000 * c1 h) (1000 * c2 h)).
Proof.
  intros Htags Hd.
  destruct (inv_nonsingular _ Hd) as (mi & Hinv & Hmi).
  exists mi. split; [assumption|].
  rewrite to_device_tags_ok, Hinv, bind_ret_l by assumption.
  unfold ret. do 2 f_equal.
  unfold Np.scale3, Np.first3, Np.dot, Np.dot4, Np.r_. cbn.
  f_equal; lra.
Qed.

Lemma to_device_never_runtime_error info o msg :
  device_to_head info ->
  outcome (Maxfilter.to_device info o) <> Raise (RuntimeError msg).
Proof.
  intros Htags. rewrite to_device_tags_ok by assumption.
  destruct (inv_outcome (trans (dev_head_t info))) as [[mi ->]| ->].
  - rewrite bind_ret_l. discriminate.
  - discriminate.
Qed.

(** *** The fit, step by step *)

Section FitSteps.
Variable fmin_powell :
  (vec4 -> list vec3 -> R) -> vec4 -> list vec3 -> bool -> vec4.

Lemma fit_no_points info ylim zlim verbose :
  Maxfilter.select_hsp info ylim zlim = ret [] ->
  Maxfilter.fit_sphere_to_headshape fmin_powell info ylim zlim verbose =
  ([], Raise (ValueError "No head digitization points found")).
Proof.
  intros Hsel. unfold Maxfilter.fit_sphere_to_headshape.
  rewrite Hsel, bind_ret_l. reflexivity.
Qed.

Lemma fit_selection_raises info ylim zlim verbose t e :
  Maxfilter.select_hsp info ylim zlim = (t, Raise e) ->
  Maxfilter.fit_sphere_to_headshape fmin_powell info ylim zlim verbose =
  (t, Raise e).
Proof.
  intros Hsel. unfold Maxfilter.fit_sphere_to_headshape.
  rewrite Hsel. reflexivity.
Qed.

Lemma fit_steps info ylim zlim verbose hsp :
  Maxfilter.select_hsp info ylim zlim = ret hsp ->
  hsp <> [] ->
  let mm := map (Np.scale3 1e3) hsp in
  let disp := truthy verbose in
  exists x0,
    Maxfilter.initial_guess mm = ret x0 /\
    let x_opt := fmin_powell Maxfilter.cost_fun x0 mm disp in
    let dev := Maxfilter.to_device info (Np.first3 x_opt) in
    Maxfilter.fit_sphere_to_headshape fmin_powell info ylim zlim verbose =
    (FminPowell x0 mm disp :: trace dev,
     match outcome dev with
     | Raise e => Raise e
     | Ok origin_device => Ok (c3 x_opt, Np.first3 x_opt, origin_device)
     end).
Proof.
  intros Hsel Hne mm disp.
  destruct (initial_guess_nonempty mm) as (xmax & xmin & ymax & ymin & zmax & _ & _ & _ & _ & _ & Hx0);
    [now apply map_nonempty|].
  eexists. split; [exact Hx0|].
  cbv zeta. unfold Maxfilter.fit_sphere_to_headshape.
  rewrite Hsel, bind_ret_l.
  destruct hsp as [|p hsp]; [congruence|]. cbn [List.length Nat.eqb].
  fold mm. rewrite Hx0, bind_ret_l.
  replace (if truthy verbose then true else false) with disp
    by (unfold disp; now destruct (truthy verbose)).
  unfold Maxfilter.call_fmin_powell, emit, trace, outcome.
  cbn [bind ret app].
  destruct (Maxfilter.to_device info _) as [t [e|od]];
    cbn [bind ret fst snd app]; rewrite ?app_nil_r; reflexivity.
Qed.
End FitSteps.

Lemma det_matmul a b : Np.det (Np.matmul a b) = Np.det a * Np.det b.
Proof.
  destruct a as [[a0 a1 a2 a3] [a4 a5 a6 a7] [a8 a9 a10 a11] [a12 a13 a14 a15]].
  destruct b as [[b0 b1 b2 b3] [b4 b5 b6 b7] [b8 b9 b10 b11] [b12 b13 b14 b15]].
  unfold Np.det, Np.matmul, Np.dot4, Np.col. cbn. ring.
Qed.

Lemma det_eye : Np.det Np.eye = 1.
Proof. unfold Np.det, Np.eye. cbn. ring. Qed.

Lemma invertible_det m : invertible m -> Np.det m <> 0.
Proof.
  intros [mi [Hl _]] Hd.
  assert (H : Np.det (Np.matmul mi m) = 1) by (rewrite Hl; apply det_eye).
  rewrite det_matmul, Hd in H. lra.
Qed.

Lemma to_device_trace info o : trace (Maxfilter.to_device info o) = [].
Proof.
  unfold Maxfilter.to_device.
  destruct (_ || _); [reflexivity|].
  destruct (inv_outcome (trans (dev_head_t info))) as [[mi ->]| ->];
    [rewrite bind_ret_l|]; reflexivity.
Qed.

Lemma is_head_point_split p :
  Maxfilter.is_head_point p = Spec.is_extra p && negb (Spec.excluded (r p)).
Proof. reflexivity. Qed.

Lemma head_points_drop_excluded info :
  Maxfilter.head_points (drop_excluded info) = Maxfilter.head_points info.
Proof.
  unfold Maxfilter.head_points, drop_excluded. cbn [dig]. f_equal.
  induction (dig info) as [|p t IH]; cbn [filter]; [reflexivity|].
  rewrite is_head_point_split.
  destruct (Spec.excluded (r p)) eqn:E; cbn [negb].
  - rewrite andb_false_r. exact IH.
  - cbn [filter]. rewrite is_head_point_split, E, IH. reflexivity.
Qed.

Lemma In_range_filter range coord l p :
  In p (Spec.range_filter range coord l) -> In p l.
Proof.
  destruct range as [rg|]; cbn; [|auto]. intros H. now apply filter_In in H.
Qed.

Lemma Rltb_true_iff a b : Rltb a b = true <-> a < b.
Proof. unfold Rltb. destruct (Rlt_dec a b); split; auto; discriminate. Qed.

Lemma Rltb_true a b : a < b -> Rltb a b = true.
Proof. apply Rltb_true_iff. Qed.

Lemma Rltb_false a b : ~ a < b -> Rltb a b = false.
Proof. unfold Rltb. now destruct (Rlt_dec a b). Qed.

(** *** What the selection can raise *)

Lemma quiet_ret {A} P (a : A) : quiet P (ret a).
Proof. split; [reflexivity|discriminate]. Qed.

Lemma quiet_raise {A} (P : exn -> Prop) e : P e -> quiet P (@raise A e).
Proof. intros H. split; [reflexivity|]. cbn. intros e' [= <-]. exact H. Qed.

Lemma quiet_bind {A B} P (c : Comp A) (k : A -> Comp B) :
  quiet P c -> (forall a, quiet P (k a)) -> quiet P (bind c k).
Proof.
  destruct c as [t [e|a]]; unfold quiet, trace, outcome; cbn [fst snd bind].
  - intros [-> He] _. split; [reflexivity|].
    intros e' [= <-]. now apply He.
  - intros [-> _] Hk. specialize (Hk a). destruct (k a) as [t' r].
    cbn [fst snd app] in *. exact Hk.
Qed.

Lemma getitem_quiet a i : quiet subscript_error (getitem a i).
Proof.
  destruct a as [x|l]; cbn.
  - apply quiet_raise. now left.
  - destruct (nth_error l i); [apply quiet_ret|apply quiet_raise; now right].
Qed.

Lemma between_quiet lim v : quiet subscript_error (Maxfilter.between lim v).
Proof.
  unfold Maxfilter.between. apply quiet_bind; [apply getitem_quiet|].
  intros lo. destruct (Rgtb v lo); [|apply quiet_ret].
  apply quiet_bind; [apply getitem_quiet|]. intros hi. apply quiet_ret.
Qed.

Lemma comprehension_quiet {A} P (cond : A -> Comp bool) l :
  (forall p, quiet P (cond p)) -> quiet P (comprehension cond l).
Proof.
  intros Hc. induction l as [|p t IH]; cbn [comprehension]; [apply quiet_ret|].
  apply quiet_bind; [apply Hc|]. intros b.
  apply quiet_bind; [exact IH|]. intros t'. apply quiet_ret.
Qed.

Lemma cut_quiet lim coord hsp : quiet subscript_error (Maxfilter.cut lim coord hsp).
Proof.
  destruct lim as [l|]; cbn; [|apply quiet_ret].
  apply comprehension_quiet. intros p. apply between_quiet.
Qed.

Lemma select_hsp_quiet info ylim zlim :
  quiet subscript_error (Maxfilter.select_hsp info ylim zlim).
Proof.
  unfold Maxfilter.select_hsp. apply quiet_bind; [apply cut_quiet|].
  intros hsp. apply cut_quiet.
Qed.

(** The selection either returns a list or fails on a subscript; it never
    leaves a trace. *)
Lemma select_hsp_cases info ylim zlim :
  (exists hsp, Maxfilter.select_hsp info ylim zlim = ret hsp) \/
  (exists e, subscript_error e /\ Maxfilter.select_hsp info ylim zlim = raise e).
Proof.
  destruct (select_hsp_quiet info ylim zlim) as [Ht He].
  destruct (Maxfilter.select_hsp info ylim zlim) as [t [e|hsp]];
    cbn in Ht, He; subst t.
  - right. exists e. split; [now apply He|reflexivity].
  - left. now exists hsp.
Qed.

(* ------------------------------------------------------------------ *)
(** ** The claims about [fit_sphere_to_headshape] *)

(** C2.  The points that are fitted are selected in this order: the points
    tagged "extra"; of these, the ones that do not have z < 0 and y > 0;
    then the ones with y strictly inside [ylim] when it is given; then the
    ones with z strictly inside [zlim] when it is given.  Every call of the
    minimiser gets exactly these points (in millimeters), and a point with
    z < 0 and y > 0 has no influence: removing all such points from the
    input changes nothing of the run, whatever the limits. *)
Theorem fitting_points_selected_in_order
    (fmin_powell : (vec4 -> list vec3 -> R) -> vec4 -> list vec3 -> bool -> vec4)
    (info : Info) (y_range z_range : option (R * R)) (verbose : pyval) :
  Maxfilter.select_hsp info (range_arg y_range) (range_arg z_range) =
    ret (Spec.fitting_points (dig info) y_range z_range)
  /\ (forall x0 args disp,
        In (FminPowell x0 args disp)
           (trace (Maxfilter.fit_sphere_to_headshape fmin_powell info
                     (range_arg y_range) (range_arg z_range) verbose)) ->
        args = map Spec.to_mm (Spec.fitting_points (dig info) y_range z_range))
  /\ (forall p, In p (Spec.fitting_points (dig info) y_range z_range) ->
                ~ (vz p < 0 /\ vy p > 0))
  /\ (forall ylim zlim,
        Maxfilter.fit_sphere_to_headshape fmin_powell (drop_excluded info)
          ylim zlim verbose =
        Maxfilter.fit_sphere_to_headshape fmin_powell info ylim zlim verbose).
Proof.
  pose proof (select_hsp_spec info y_range z_range) as Hsel.
  split; [exact Hsel|]. split; [|split].
  - intros x0 args disp Hin.
    destruct (Spec.fitting_points (dig info) y_range z_range) as [|q l] eqn:E.
    + rewrite (fit_no_points _ _ _ _ _ Hsel) in Hin. destruct Hin.
    + assert (Hne : q :: l <> []) by discriminate.
      destruct (fit_steps fmin_powell info _ _ verbose _ Hsel Hne) as (x & _ & Hfit).
      cbv zeta in Hfit. rewrite Hfit in Hin. unfold trace at 1 in Hin.
      cbn [fst] in Hin. rewrite to_device_trace in Hin.
      destruct Hin as [Heq|[]]. injection Heq as _ <- _.
      apply (map_scale3_to_mm (q :: l)).
  - intros p Hin [Hz Hy]. unfold Spec.fitting_points in Hin.
    do 2 apply In_range_filter in Hin.
    apply filter_In in Hin. destruct Hin as [_ Hex].
    unfold Spec.excluded in Hex.
    rewrite (Rltb_true _ _ Hz), (Rltb_true 0 (vy p)) in Hex by lra.
    discriminate.
  - intros ylim zlim. unfold Maxfilter.fit_sphere_to_headshape, Maxfilter.select_hsp.
    rewrite head_points_drop_excluded. reflexivity.
Qed.

(** C3.  When the selection leaves no point, the call raises the
    [ValueError] of the emptiness check, and its trace is empty: the
    minimiser has not been called, and no sphere is returned. *)
Theorem fit_empty_raises_before_optimization
    (fmin_powell : (vec4 -> list vec3 -> R) -> vec4 -> list vec3 -> bool -> vec4)
    (info : Info) (ylim zlim : option pyarg) (verbose : pyval) :
  Maxfilter.select_hsp info ylim zlim = ret [] ->
  outcome (Maxfilter.fit_sphere_to_headshape fmin_powell info ylim zlim verbose)
    = Raise (ValueError "No head digitization points found")
  /\ trace (Maxfilter.fit_sphere_to_headshape fmin_powell info ylim zlim verbose)
    = [].
Proof.
  intros Hsel. rewrite (fit_no_points _ _ _ _ _ Hsel). split; reflexivity.
Qed.

(** C4, as amended.  When the selection leaves at least one point and the
    transform is not tagged device to head, the call raises the
    [RuntimeError] of the frame check, after the one call of the minimiser,
    and returns nothing.  When the transform is tagged device to head, the
    call never raises a [RuntimeError]. *)
Theorem fit_checks_transform_tags
    (fmin_powell : (vec4 -> list vec3 -> R) -> vec4 -> list vec3 -> bool -> vec4)
    (info : Info) (ylim zlim : option pyarg) (verbose : pyval) :
  (forall hsp,
      Maxfilter.select_hsp info ylim zlim = ret hsp -> hsp <> [] ->
      ~ device_to_head info ->
      outcome (Maxfilter.fit_sphere_to_headshape fmin_powell info ylim zlim verbose)
        = Raise (RuntimeError "device to head transform not found")
      /\ exists x0,
          trace (Maxfilter.fit_sphere_to_headshape fmin_powell info ylim zlim verbose)
          = [FminPowell x0 (map Spec.to_mm hsp) (truthy verbose)])
  /\ (device_to_head info ->
      forall msg,
        outcome (Maxfilter.fit_sphere_to_headshape fmin_powell info ylim zlim verbose)
        <> Raise (RuntimeError msg)).
Proof.
  split.
  - intros hsp Hsel Hne Htags.
    destruct (fit_steps fmin_powell info _ _ verbose _ Hsel Hne) as (x0 & _ & Hfit).
    cbv zeta in Hfit. rewrite Hfit, map_scale3_to_mm.
    rewrite to_device_wrong_tags by assumption.
    split; [reflexivity|]. exists x0. reflexivity.
  - intros Htags msg.
    destruct (select_hsp_cases info ylim zlim) as [[hsp Hsel]|(e & He & Hsel)].
    + destruct hsp as [|p hsp].
      * rewrite (fit_no_points _ _ _ _ _ Hsel). discriminate.
      * assert (Hne : p :: hsp <> []) by discriminate.
        destruct (fit_steps fmin_powell info _ _ verbose _ Hsel Hne) as (x0 & _ & Hfit).
        cbv zeta in Hfit. rewrite Hfit. unfold outcome at 1. cbn [snd].
        pose proof (to_device_never_runtime_error info
                      (Np.first3 (fmin_powell Maxfilter.cost_fun x0
                                    (map (Np.scale3 1e3) (p :: hsp)) (truthy verbose)))
                      msg Htags) as Hdev.
        destruct (outcome (Maxfilter.to_device info _)) as [e|od];
          [congruence|discriminate].
    + rewrite (fit_selection_raises _ _ _ _ _ _ _ Hsel). cbn.
      destruct He as [-> | ->]; discriminate.
Qed.

(** C5.  When the selection leaves at least one point and the transform is
    tagged device to head and has an inverse, the call returns.  With
    [x_opt] the minimiser's result on the points in millimeters, the
    returned radius is its fourth component, the returned head-frame
    center its first three, and the returned device-frame center is 1000
    times the first three components of the inverse of the transform
    applied to (center_head / 1000, 1). *)
Theorem fit_returns_device_center
    (fmin_powell : (vec4 -> list vec3 -> R) -> vec4 -> list vec3 -> bool -> vec4)
    (info : Info) (ylim zlim : option pyarg) (verbose : pyval)
    (hsp : list vec3) :
  Maxfilter.select_hsp info ylim zlim = ret hsp ->
  hsp <> [] ->
  device_to_head info ->
  invertible (trans (dev_head_t info)) ->
  exists x0 head_to_dev,
    Maxfilter.initial_guess (map Spec.to_mm hsp) = ret x0 /\
    Np.is_inverse (trans (dev_head_t info)) head_to_dev /\
    let x_opt :=
      fmin_powell Maxfilter.cost_fun x0 (map Spec.to_mm hsp) (truthy verbose) in
    let center_head := V3 (c0 x_opt) (c1 x_opt) (c2 x_opt) in
    let radius := c3 x_opt in
    let h :=
      Np.dot head_to_dev
        (V4 (vx center_head / 1000) (vy center_head / 1000)
            (vz center_head / 1000) 1) in
    let center_device := V3 (1000 * c0 h) (1000 * c1 h) (1000 * c2 h) in
    outcome (Maxfilter.fit_sphere_to_headshape fmin_powell info ylim zlim verbose)
    = Ok (radius, center_head, center_device).
Proof.
  intros Hsel Hne Htags Hinv.
  destruct (fit_steps fmin_powell info _ _ verbose _ Hsel Hne) as (x0 & Hx0 & Hfit).
  cbv zeta in Hfit. rewrite map_scale3_to_mm in Hx0, Hfit.
  set (x_opt := fmin_powell Maxfilter.cost_fun x0 (map Spec.to_mm hsp) (truthy verbose)) in *.
  destruct (to_device_value info (Np.first3 x_opt) Htags (invertible_det _ Hinv))
    as (mi & Hmi & Hdev).
  exists x0, mi. split; [exact Hx0|]. split; [exact Hmi|].
  cbv zeta. fold x_opt. rewrite Hfit, Hdev. reflexivity.
Qed.

(** C6.  When the selection leaves at least one point, the minimiser is
    called once, on the points multiplied by 1000, from the starting point
    (0, 0, max z - radius_init, radius_init), where radius_init is the mean
    of the half-ranges of x and of y, all extrema being those of the
    multiplied points. *)
Theorem fit_starting_point
    (fmin_powell : (vec4 -> list vec3 -> R) -> vec4 -> list vec3 -> bool -> vec4)
    (info : Info) (ylim zlim : option pyarg) (verbose : pyval)
    (hsp : list vec3) :
  Maxfilter.select_hsp info ylim zlim = ret hsp ->
  hsp <> [] ->
  let mm := map Spec.to_mm hsp in
  exists xmax xmin ymax ymin zmax,
    Spec.is_max xmax (map vx mm) /\ Spec.is_min xmin (map vx mm) /\
    Spec.is_max ymax (map vy mm) /\ Spec.is_min ymin (map vy mm) /\
    Spec.is_max zmax (map vz mm) /\
    let radius_init := ((xmax - xmin) / 2 + (ymax - ymin) / 2) / 2 in
    trace (Maxfilter.fit_sphere_to_headshape fmin_powell info ylim zlim verbose)
    = [FminPowell (V4 0 0 (zmax - radius_init) radius_init) mm (truthy verbose)].
Proof.
  intros Hsel Hne mm.
  destruct (fit_steps fmin_powell info _ _ verbose _ Hsel Hne) as (x0 & Hx0 & Hfit).
  cbv zeta in Hfit. rewrite map_scale3_to_mm in Hx0, Hfit. fold mm in Hx0, Hfit.
  destruct (initial_guess_nonempty mm)
    as (xmax & xmin & ymax & ymin & zmax & Hxmax & Hxmin & Hymax & Hymin & Hzmax & Hig);
    [now apply map_nonempty|].
  exists xmax, xmin, ymax, ymin, zmax. repeat (split; [assumption|]).
  cbv zeta in *. rewrite Hig in Hx0. injection Hx0 as <-.
  rewrite Hfit. unfold trace at 1. cbn [fst]. rewrite to_device_trace. reflexivity.
Qed.

(** C7.  With a minimiser whose result does not depend on [disp] (the flag
    only switches its convergence messages), two runs that differ only in
    [verbose] end the same way: the same triple, or the same exception. *)
Theorem fit_result_independent_of_verbose
    (fmin_powell : (vec4 -> list vec3 -> R) -> vec4 -> list vec3 -> bool -> vec4)
    (info : Info) (ylim zlim : option pyarg) (verbose1 verbose2 : pyval) :
  (forall f x0 args d1 d2,
      fmin_powell f x0 args d1 = fmin_powell f x0 args d2) ->
  outcome (Maxfilter.fit_sphere_to_headshape fmin_powell info ylim zlim verbose1)
  = outcome (Maxfilter.fit_sphere_to_headshape fmin_powell info ylim zlim verbose2).
Proof.
  intros Hdisp.
  destruct (select_hsp_cases info ylim zlim) as [[hsp Hsel]|(e & _ & Hsel)].
  - destruct hsp as [|p hsp].
    + now rewrite !(fit_no_points _ _ _ _ _ Hsel).
    + assert (Hne : p :: hsp <> []) by discriminate.
      destruct (fit_steps fmin_powell info _ _ verbose1 _ Hsel Hne) as (x1 & Hx1 & Hfit1).
      destruct (fit_steps fmin_powell info _ _ verbose2 _ Hsel Hne) as (x2 & Hx2 & Hfit2).
      cbv zeta in *. rewrite Hx1 in Hx2. injection Hx2 as <-.
      rewrite Hfit1, Hfit2. unfold outcome at 1 3. cbn [snd].
      rewrite (Hdisp _ _ _ (truthy verbose1) (truthy verbose2)). reflexivity.
  - now rewrite !(fit_selection_raises _ _ _ _ _ _ _ Hsel).
Qed.

(** C8.  The y cut and the z cut are idempotent: with a (min, max) pair,
    the cut of any list returns a list, and cutting that list again with
    the same pair returns it unchanged. *)
Theorem range_cut_idempotent (lo hi : R) (hsp : list vec3) :
  (exists kept,
      Maxfilter.cut (Some (PySeq [lo; hi])) vy hsp = ret kept /\
      Maxfilter.cut (Some (PySeq [lo; hi])) vy kept = ret kept)
  /\ (exists kept,
      Maxfilter.cut (Some (PySeq [lo; hi])) vz hsp = ret kept /\
      Maxfilter.cut (Some (PySeq [lo; hi])) vz kept = ret kept).
Proof.
  split.
  - exists (Spec.range_filter (Some (lo, hi)) vy hsp).
    rewrite !(cut_range (Some (lo, hi))). split; [reflexivity|].
    cbn [Spec.range_filter]. now rewrite filter_twice.
  - exists (Spec.range_filter (Some (lo, hi)) vz hsp).
    rewrite !(cut_range (Some (lo, hi))). split; [reflexivity|].
    cbn [Spec.range_filter]. now rewrite filter_twice.
Qed.

(* ------------------------------------------------------------------ *)
(** ** The claims about [build_maxfilter_cmd] *)

Lemma raises_bind_l {A B} (c : Comp A) (k : A -> Comp B) :
  raises c -> raises (bind c k).
Proof.
  intros [e He]. destruct c as [t [e'|a]]; cbn in He; [|discriminate].
  exists e'. reflexivity.
Qed.

Lemma raises_bind_r {A B} (c : Comp A) (k : A -> Comp B) :
  (forall a, raises (k a)) -> raises (bind c k).
Proof.
  intros Hk. destruct c as [t [e|a]]; [now exists e|].
  destruct (Hk a) as [e He]. exists e. cbn [bind].
  destruct (k a) as [t' r']. exact He.
Qed.

Lemma outcome_bind_ok {A B} (c : Comp A) (k : A -> Comp B) a :
  outcome c = Ok a -> outcome (bind c k) = outcome (k a).
Proof.
  destruct c as [t [e|a']]; cbn; [discriminate|]. intros [= ->].
  now destruct (k a).
Qed.

Lemma outcome_bind_raise {A B} (c : Comp A) (k : A -> Comp B) e :
  outcome c = Raise e -> outcome (bind c k) = Raise e.
Proof. destruct c as [t [e'|a']]; cbn; intros H; [now injection H as ->|discriminate]. Qed.

Lemma outcome_log_info self msg : outcome (Maxfilter.log_info self msg) = Ok tt.
Proof. unfold Maxfilter.log_info. now destruct (Maxfilter.logger_info self). Qed.

(** [ylim[0]] on the float [ylim]: the cut of a non-empty list fails. *)
Lemma cut_scalar_limit x coord p hsp :
  Maxfilter.cut (Some (PyFloat x)) coord (p :: hsp) = raise TypeError.
Proof. reflexivity. Qed.

Lemma cut_nil lim coord : Maxfilter.cut lim coord [] = ret [].
Proof. now destruct lim. Qed.

Section BuildSteps.
Variable fmin_powell :
  (vec4 -> list vec3 -> R) -> vec4 -> list vec3 -> bool -> vec4.
Variable Raw : string -> res Info.
Variable format_f : nat -> R -> string.

(** The fit as [build_maxfilter_cmd] calls it. *)
Lemma fit_scalar_ylim info verbose :
  Maxfilter.fit_sphere_to_headshape fmin_powell info
    (Some (PyFloat 0.070)) None verbose =
  match Maxfilter.head_points info with
  | [] => raise (ValueError "No head digitization points found")
  | _ :: _ => raise TypeError
  end.
Proof.
  unfold Maxfilter.fit_sphere_to_headshape, Maxfilter.select_hsp.
  destruct (Maxfilter.head_points info) as [|p hsp].
  - rewrite cut_nil, bind_ret_l. cbn [Maxfilter.cut]. now rewrite bind_ret_l.
  - now rewrite cut_scalar_limit.
Qed.

Lemma estimate_origin_outcome self a :
  outcome (Maxfilter.estimate_origin fmin_powell Raw self a) =
  match Raw (Maxfilter.in_fname a) with
  | Raise e => Raise e
  | Ok info =>
      match Maxfilter.head_points info with
      | [] => Raise (ValueError "No head digitization points found")
      | _ :: _ => Raise TypeError
      end
  end.
Proof.
  unfold Maxfilter.estimate_origin.
  rewrite (outcome_bind_ok _ _ tt) by apply outcome_log_info.
  destruct (Raw (Maxfilter.in_fname a)) as [e|info]; [reflexivity|].
  rewrite (outcome_bind_ok _ _ info) by reflexivity.
  rewrite fit_scalar_ylim.
  destruct (Maxfilter.head_points info); reflexivity.
Qed.

Lemma estimate_origin_raises self a :
  raises (Maxfilter.estimate_origin fmin_powell Raw self a).
Proof.
  unfold raises. rewrite estimate_origin_outcome.
  destruct (Raw (Maxfilter.in_fname a)) as [e|info]; [eauto|].
  destruct (Maxfilter.head_points info); eauto.
Qed.

Lemma build_cmd_origin_none self a e :
  Maxfilter.origin a = Maxfilter.ONone ->
  outcome (Maxfilter.estimate_origin fmin_powell Raw self a) = Raise e ->
  outcome (Maxfilter.build_cmd fmin_powell Raw format_f self a) = Raise e.
Proof.
  intros Ho He. unfold Maxfilter.build_cmd. rewrite Ho.
  now apply outcome_bind_raise.
Qed.

Lemma build_outcome self a :
  outcome (fst (Maxfilter.build_maxfilter_cmd fmin_powell Raw format_f self a)) =
  match outcome (Maxfilter.build_cmd fmin_powell Raw format_f self a) with
  | Raise e => Raise e
  | Ok _ => Ok tt
  end.
Proof.
  unfold Maxfilter.build_maxfilter_cmd.
  destruct (Maxfilter.build_cmd fmin_powell Raw format_f self a) as [t [e|c]];
    reflexivity.
Qed.

Lemma build_raises self a :
  raises (Maxfilter.build_cmd fmin_powell Raw format_f self a) ->
  exists t e,
    Maxfilter.build_maxfilter_cmd fmin_powell Raw format_f self a =
    ((t, Raise e), self).
Proof.
  intros [e He]. unfold Maxfilter.build_maxfilter_cmd.
  destruct (Maxfilter.build_cmd fmin_powell Raw format_f self a) as [t [e'|c]];
    cbn in He; [eauto|discriminate].
Qed.

(** With [st] set and a float buffer length, the MaxST block raises, so
    the command is never completed. *)
Lemma build_cmd_st_float_raises self a x :
  Maxfilter.st a = true ->
  Maxfilter.st_buflen a = VFloat x ->
  raises (Maxfilter.build_cmd fmin_powell Raw format_f self a).
Proof.
  intros Hst Hbuf. unfold Maxfilter.build_cmd.
  apply raises_bind_r. intros origin_.
  apply raises_bind_r. intros cmd_. cbv zeta.
  apply raises_bind_l. rewrite Hst, Hbuf.
  exists format_code_error. reflexivity.
Qed.

Lemma build_cmd_st_float_outcome self a x :
  Maxfilter.st a = true ->
  Maxfilter.st_buflen a = VFloat x ->
  origin_formats (Maxfilter.origin a) ->
  Maxfilter.build_cmd fmin_powell Raw format_f self a =
  raise format_code_error.
Proof.
  intros Hst Hbuf Ho. unfold Maxfilter.build_cmd.
  destruct (Maxfilter.origin a) as [| |s|[y|[|o0 [|o1 [|o2 rest]]]]];
    try contradiction; rewrite Hst, Hbuf; reflexivity.
Qed.
End BuildSteps.

(** C9.  With [origin=None] the call always ends in an exception and
    leaves the object, hence [cmd], as it was.  When the file is read and
    holds an eligible point, the exception is the [TypeError] of the
    subscript [ylim[0]] on the float 0.070.  And the log lines that would
    follow cannot be formatted either: the field [{.1f}] raises on any
    float. *)
Theorem build_with_origin_none_always_raises
    (fmin_powell : (vec4 -> list vec3 -> R) -> vec4 -> list vec3 -> bool -> vec4)
    (Raw : string -> res Info) (format_f : nat -> R -> string)
    (self : Maxfilter.Self) (a : Maxfilter.Args) :
  Maxfilter.origin a = Maxfilter.ONone ->
  (exists t e,
      Maxfilter.build_maxfilter_cmd fmin_powell Raw format_f self a =
      ((t, Raise e), self))
  /\ (forall info,
        Raw (Maxfilter.in_fname a) = Ok info ->
        Maxfilter.head_points info <> [] ->
        outcome (fst (Maxfilter.build_maxfilter_cmd fmin_powell Raw format_f self a))
        = Raise TypeError)
  /\ (forall x rest,
        Maxfilter.format_attr_1f (x :: rest) = raise AttributeError).
Proof.
  intros Ho. split; [|split].
  - apply build_raises.
    destruct (estimate_origin_raises fmin_powell Raw self a) as [e He].
    exists e. now apply build_cmd_origin_none.
  - intros info Hraw Hne.
    rewrite build_outcome, (build_cmd_origin_none _ _ _ _ _ TypeError Ho);
      [reflexivity|].
    rewrite estimate_origin_outcome, Hraw.
    destruct (Maxfilter.head_points info); [congruence|reflexivity].
  - reflexivity.
Qed.

(** C10, as amended.  With [st=True] and a float [st_buflen], the call
    always ends in an exception and leaves the object, hence [cmd], as it
    was.  When [origin] is [False], a string or a sequence of at least
    three floats, that exception is the [ValueError] of formatting the
    float with ['{:d}'], and nothing has been logged. *)
Theorem build_with_st_float_buflen_raises
    (fmin_powell : (vec4 -> list vec3 -> R) -> vec4 -> list vec3 -> bool -> vec4)
    (Raw : string -> res Info) (format_f : nat -> R -> string)
    (self : Maxfilter.Self) (a : Maxfilter.Args) (x : R) :
  Maxfilter.st a = true ->
  Maxfilter.st_buflen a = VFloat x ->
  (exists t e,
      Maxfilter.build_maxfilter_cmd fmin_powell Raw format_f self a =
      ((t, Raise e), self))
  /\ (origin_formats (Maxfilter.origin a) ->
      Maxfilter.build_maxfilter_cmd fmin_powell Raw format_f self a =
      (([], Raise format_code_error), self)).
Proof.
  intros Hst Hbuf. split.
  - apply build_raises. now apply build_cmd_st_float_raises with x.
  - intros Ho. unfold Maxfilter.build_maxfilter_cmd.
    now rewrite (build_cmd_st_float_outcome _ _ _ _ _ x Hst Hbuf Ho).
Qed.

(* ------------------------------------------------------------------ *)
(** ** The claims at concrete inputs *)

Lemma filter_cons_true {A} (f : A -> bool) a l :
  f a = true -> filter f (a :: l) = a :: filter f l.
Proof. intros H. cbn. now rewrite H. Qed.

Lemma filter_cons_false {A} (f : A -> bool) a l :
  f a = false -> filter f (a :: l) = filter f l.
Proof. intros H. cbn. now rewrite H. Qed.

(** Decide the comparisons of numerals in the goal. *)
Ltac eval_Rltb :=
  repeat match goal with
         | |- context [Rltb ?a ?b] =>
             first [ rewrite (Rltb_true a b) by lra
                   | rewrite (Rltb_false a b) by lra ]
         end.

Ltac eval_head_point :=
  unfold Maxfilter.is_head_point, Example.extra, Rgtb;
  cbn [kind r vx vy vz]; eval_Rltb; reflexivity.

Ltac eval_head_points :=
  unfold Maxfilter.head_points; cbn [dig];
  repeat first [ rewrite filter_cons_true by eval_head_point
               | rewrite filter_cons_false by eval_head_point ];
  reflexivity.

Lemma head_points_octahedron (t : transform) :
  Maxfilter.head_points (MkInfo Example.octahedron t) = map r Example.octahedron.
Proof. unfold Example.octahedron. eval_head_points. Defined.

Lemma head_points_none (t : transform) :
  Maxfilter.head_points (MkInfo Example.no_head_points t) = [].
Proof. unfold Example.no_head_points. eval_head_points. Defined.

Lemma select_octahedron (t : transform) :
  Maxfilter.select_hsp (MkInfo Example.octahedron t) None None =
  ret (map r Example.octahedron).
Proof.
  unfold Maxfilter.select_hsp. rewrite head_points_octahedron. reflexivity.
Defined.

Lemma select_none (t : transform) :
  Maxfilter.select_hsp (MkInfo Example.no_head_points t) None None = ret [].
Proof.
  unfold Maxfilter.select_hsp. rewrite head_points_none. reflexivity.
Defined.

Lemma shift_tags : device_to_head Example.octahedron_info.
Proof. split; reflexivity. Defined.

Lemma wrong_tags (d : list dig_point) :
  ~ device_to_head (MkInfo d Example.shift_head_to_device).
Proof. intros [H _]. discriminate H. Defined.

Lemma translation_invertible tx ty tz :
  invertible (Example.translation tx ty tz).
Proof.
  exists (Example.translation (- tx) (- ty) (- tz)).
  split; unfold Np.matmul, Np.eye, Example.translation, Np.dot4, Np.col;
    cbn [c0 c1 c2 c3 Np.row0 Np.row1 Np.row2 Np.row3];
    repeat f_equal; ring.
Defined.

(** C3 at a nose point and a cardinal point. *)
Lemma fit_empty_raises_before_optimization_witness :
  Maxfilter.select_hsp Example.empty_info None None = ret []
  /\ outcome (Maxfilter.fit_sphere_to_headshape Example.keep_start
                Example.empty_info None None VNone)
     = Raise (ValueError "No head digitization points found")
  /\ trace (Maxfilter.fit_sphere_to_headshape Example.keep_start
              Example.empty_info None None VNone)
     = [].
Proof.
  split; [apply select_none|].
  apply (fit_empty_raises_before_optimization Example.keep_start
           Example.empty_info None None VNone).
  apply select_none.
Defined.

(** C4 as first stated fails when no point is selected: the transform is
    tagged head to device, and the exception is the [ValueError] of the
    emptiness check, not the [RuntimeError] of the frame check. *)
Lemma fit_wrong_tags_no_points_counterexample :
  ~ device_to_head Example.empty_wrong_tags
  /\ Maxfilter.fit_sphere_to_headshape Example.keep_start
       Example.empty_wrong_tags None None VNone
     = ([], Raise (ValueError "No head digitization points found"))
  /\ forall msg,
       outcome (Maxfilter.fit_sphere_to_headshape Example.keep_start
                  Example.empty_wrong_tags None None VNone)
       <> Raise (RuntimeError msg).
Proof.
  assert (H : Maxfilter.fit_sphere_to_headshape Example.keep_start
                Example.empty_wrong_tags None None VNone
              = ([], Raise (ValueError "No head digitization points found"))).
  { apply fit_no_points. apply select_none. }
  split; [apply wrong_tags|]. split; [exact H|].
  intros msg. rewrite H. discriminate.
Qed.

(** C4 as amended, at the octahedron with the two taggings. *)
Lemma fit_checks_transform_tags_witness :
  (Maxfilter.select_hsp Example.octahedron_wrong_tags None None
     = ret (map r Example.octahedron)
   /\ map r Example.octahedron <> []
   /\ ~ device_to_head Example.octahedron_wrong_tags
   /\ outcome (Maxfilter.fit_sphere_to_headshape Example.keep_start
                 Example.octahedron_wrong_tags None None VNone)
      = Raise (RuntimeError "device to head transform not found"))
  /\ (device_to_head Example.octahedron_info
      /\ forall msg,
          outcome (Maxfilter.fit_sphere_to_headshape Example.keep_start
                     Example.octahedron_info None None VNone)
          <> Raise (RuntimeError msg)).
Proof.
  split.
  - split; [apply select_octahedron|]. split; [discriminate|].
    split; [apply wrong_tags|].
    apply (proj1 (fit_checks_transform_tags Example.keep_start
                    Example.octahedron_wrong_tags None None VNone)
             (map r Example.octahedron)).
    + apply select_octahedron.
    + discriminate.
    + apply wrong_tags.
  - split; [apply shift_tags|].
    apply (proj2 (fit_checks_transform_tags Example.keep_start
                    Example.octahedron_info None None VNone)).
    apply shift_tags.
Defined.

(** C5 at the octahedron, shifted frame. *)
Lemma fit_returns_device_center_witness :
  Maxfilter.select_hsp Example.octahedron_info None None
    = ret (map r Example.octahedron)
  /\ map r Example.octahedron <> []
  /\ device_to_head Example.octahedron_info
  /\ invertible (trans (dev_head_t Example.octahedron_info))
  /\ exists x0 head_to_dev,
      Maxfilter.initial_guess (map Spec.to_mm (map r Example.octahedron)) = ret x0 /\
      Np.is_inverse (trans (dev_head_t Example.octahedron_info)) head_to_dev /\
      let x_opt :=
        Example.keep_start Maxfilter.cost_fun x0
          (map Spec.to_mm (map r Example.octahedron)) (truthy VNone) in
      let center_head := V3 (c0 x_opt) (c1 x_opt) (c2 x_opt) in
      let radius := c3 x_opt in
      let h :=
        Np.dot head_to_dev
          (V4 (vx center_head / 1000) (vy center_head / 1000)
              (vz center_head / 1000) 1) in
      let center_device := V3 (1000 * c0 h) (1000 * c1 h) (1000 * c2 h) in
      outcome (Maxfilter.fit_sphere_to_headshape Example.keep_start
                 Example.octahedron_info None None VNone)
      = Ok (radius, center_head, center_device).
Proof.
  split; [apply select_octahedron|]. split; [discriminate|].
  split; [apply shift_tags|]. split; [apply translation_invertible|].
  apply (fit_returns_device_center Example.keep_start Example.octahedron_info
           None None VNone (map r Example.octahedron)).
  - apply select_octahedron.
  - discriminate.
  - apply shift_tags.
  - apply translation_invertible.
Defined.

(** C6 at the octahedron. *)
Lemma fit_starting_point_witness :
  Maxfilter.select_hsp Example.octahedron_info None None
    = ret (map r Example.octahedron)
  /\ map r Example.octahedron <> []
  /\ let mm := map Spec.to_mm (map r Example.octahedron) in
     exists xmax xmin ymax ymin zmax,
       Spec.is_max xmax (map vx mm) /\ Spec.is_min xmin (map vx mm) /\
       Spec.is_max ymax (map vy mm) /\ Spec.is_min ymin (map vy mm) /\
       Spec.is_max zmax (map vz mm) /\
       let radius_init := ((xmax - xmin) / 2 + (ymax - ymin) / 2) / 2 in
       trace (Maxfilter.fit_sphere_to_headshape Example.keep_start
                Example.octahedron_info None None VNone)
       = [FminPowell (V4 0 0 (zmax - radius_init) radius_init) mm (truthy VNone)].
Proof.
  split; [apply select_octahedron|]. split; [discriminate|].
  apply (fit_starting_point Example.keep_start Example.octahedron_info
           None None VNone (map r Example.octahedron)).
  - apply select_octahedron.
  - discriminate.
Defined.

(** C7 with the minimiser that returns its starting point. *)
Lemma fit_result_independent_of_verbose_witness :
  (forall f x0 args d1 d2,
      Example.keep_start f x0 args d1 = Example.keep_start f x0 args d2)
  /\ outcome (Maxfilter.fit_sphere_to_headshape Example.keep_start
                Example.octahedron_info None None VNone)
     = outcome (Maxfilter.fit_sphere_to_headshape Example.keep_start
                  Example.octahedron_info None None (VBool true)).
Proof.
  split; [reflexivity|].
  apply (fit_result_independent_of_verbose Example.keep_start
           Example.octahedron_info None None VNone (VBool true)).
  reflexivity.
Defined.

(** C9 at the default arguments with [origin=None]. *)
Lemma build_with_origin_none_always_raises_witness :
  Maxfilter.origin Example.args_origin_none = Maxfilter.ONone
  /\ (exists t e,
        Maxfilter.build_maxfilter_cmd Example.keep_start Example.read_octahedron
          Example.no_digits Example.fresh Example.args_origin_none =
        ((t, Raise e), Example.fresh))
  /\ (forall info,
        Example.read_octahedron (Maxfilter.in_fname Example.args_origin_none)
          = Ok info ->
        Maxfilter.head_points info <> [] ->
        outcome (fst (Maxfilter.build_maxfilter_cmd Example.keep_start
                        Example.read_octahedron Example.no_digits Example.fresh
                        Example.args_origin_none))
        = Raise TypeError)
  /\ (forall x rest,
        Maxfilter.format_attr_1f (x :: rest) = raise AttributeError).
Proof.
  split; [reflexivity|].
  apply (build_with_origin_none_always_raises Example.keep_start
           Example.read_octahedron Example.no_digits Example.fresh
           Example.args_origin_none).
  reflexivity.
Defined.

(** C10 as first stated fails when an earlier step raises: with
    [origin=None], [st=True] and the default [st_buflen=16.0], on a file
    that holds the octahedron, the exception is the [TypeError] of the
    subscript [ylim[0]], not a formatting error. *)
Lemma build_st_origin_none_counterexample :
  Maxfilter.st (Example.args_st Maxfilter.ONone) = true
  /\ Maxfilter.st_buflen (Example.args_st Maxfilter.ONone) = VFloat 16.0
  /\ outcome (fst (Maxfilter.build_maxfilter_cmd Example.keep_start
                     Example.read_octahedron Example.no_digits Example.fresh
                     (Example.args_st Maxfilter.ONone)))
     = Raise TypeError
  /\ TypeError <> format_code_error.
Proof.
  split; [reflexivity|]. split; [reflexivity|]. split; [|discriminate].
  rewrite build_outcome.
  rewrite (build_cmd_origin_none _ _ _ _ _ TypeError); [reflexivity..|].
  rewrite estimate_origin_outcome. unfold Example.read_octahedron.
  unfold Example.octahedron_info. rewrite head_points_octahedron.
  reflexivity.
Qed.

(** C10 as amended, at [st=True] with the default [origin] and
    [st_buflen]. *)
Lemma build_with_st_float_buflen_raises_witness :
  Maxfilter.st (Example.args_st (Maxfilter.OStr "0 0 40")) = true
  /\ Maxfilter.st_buflen (Example.args_st (Maxfilter.OStr "0 0 40")) = VFloat 16.0
  /\ (exists t e,
        Maxfilter.build_maxfilter_cmd Example.keep_start Example.read_octahedron
          Example.no_digits Example.fresh
          (Example.args_st (Maxfilter.OStr "0 0 40")) =
        ((t, Raise e), Example.fresh))
  /\ (origin_formats (Maxfilter.origin (Example.args_st (Maxfilter.OStr "0 0 40"))) ->
      Maxfilter.build_maxfilter_cmd Example.keep_start Example.read_octahedron
        Example.no_digits Example.fresh
        (Example.args_st (Maxfilter.OStr "0 0 40")) =
      (([], Raise format_code_error), Example.fresh)).
Proof.
  split; [reflexivity|]. split; [reflexivity|].
  apply (build_with_st_float_buflen_raises Example.keep_start
           Example.read_octahedron Example.no_digits Example.fresh
           (Example.args_st (Maxfilter.OStr "0 0 40")) 16.0);
    reflexivity.
Defined.

(* ------------------------------------------------------------------ *)
(** ** The objective of the fit *)

Lemma cost_fun_cons x p hsp :
  Maxfilter.cost_fun x (p :: hsp) =
  (Spec.dist p (Np.first3 x) - c3 x) ^ 2 + Maxfilter.cost_fun x hsp.
Proof. reflexivity. Qed.

Lemma cost_fun_nonneg x hsp : 0 <= Maxfilter.cost_fun x hsp.
Proof.
  induction hsp as [|p t IH]; [apply Rle_refl|].
  rewrite cost_fun_cons.
  pose proof (pow2_ge_0 (Spec.dist p (Np.first3 x) - c3 x)). lra.
Qed.

(** The objective vanishes exactly at the spheres through all points. *)
Lemma cost_fun_zero_iff x hsp :
  Maxfilter.cost_fun x hsp = 0 <->
  forall p, In p hsp -> Spec.on_sphere (Np.first3 x) (c3 x) p.
Proof.
  induction hsp as [|p t IH].
  - split; [intros _ q []|reflexivity].
  - rewrite cost_fun_cons.
    pose proof (pow2_ge_0 (Spec.dist p (Np.first3 x) - c3 x)) as Hsq.
    pose proof (cost_fun_nonneg x t) as Hpos.
    split.
    + intros H q [<-|Hq].
      * assert (Hz : (Spec.dist p (Np.first3 x) - c3 x) ^ 2 = 0) by lra.
        unfold Spec.on_sphere. nra.
      * apply IH; [lra|exact Hq].
    + intros H.
      assert (Ht : Maxfilter.cost_fun x t = 0)
        by (apply IH; intros q Hq; apply H; now right).
      assert (Hp : Spec.dist p (Np.first3 x) = c3 x) by (apply H; now left).
      rewrite Ht, Hp. ring.
Qed.

Lemma cost_fun_on_sphere c rad hsp :
  (forall p, In p hsp -> Spec.on_sphere c rad p) ->
  Maxfilter.cost_fun (Np.r_ c rad) hsp = 0.
Proof.
  intros H. apply cost_fun_zero_iff. intros p Hp.
  destruct c as [cx cy cz]. now apply H.
Qed.



(** *** The octahedron *)



Lemma octahedron_mm_eq :
  map Spec.to_mm (map r Example.octahedron) =
  [ V3 (1000 * 0.05) (1000 * 0) (1000 * 0.1);
    V3 (1000 * -0.05) (1000 * 0) (1000 * 0.1);
    V3 (1000 * 0) (1000 * 0.05) (1000 * 0.1);
    V3 (1000 * 0) (1000 * -0.05) (1000 * 0.1);
    V3 (1000 * 0) (1000 * 0) (1000 * 0.15);
    V3 (1000 * 0) (1000 * 0) (1000 * 0.05) ].
Proof. reflexivity. Qed.


Lemma sqrt_of_square a rad : 0 <= rad -> a = rad * rad -> sqrt a = rad.
Proof. intros Hr ->. now apply sqrt_square. Qed.

Lemma dist_square p c : Spec.dist p c * Spec.dist p c =
  (vx p - vx c) ^ 2 + (vy p - vy c) ^ 2 + (vz p - vz c) ^ 2.
Proof.
  unfold Spec.dist. apply sqrt_sqrt.
  pose proof (pow2_ge_0 (vx p - vx c)). pose proof (pow2_ge_0 (vy p - vy c)).
  pose proof (pow2_ge_0 (vz p - vz c)). lra.
Qed.

Lemma dist_nonneg p c : 0 <= Spec.dist p c.
Proof. unfold Spec.dist. apply sqrt_pos. Qed.

Lemma octahedron_on_sphere p :
  In p (map Spec.to_mm (map r Example.octahedron)) ->
  Spec.on_sphere (V3 0 0 100) 50 p.
Proof.
  rewrite octahedron_mm_eq. intros H. cbn [In] in H.
  repeat match type of H with _ \/ _ => destruct H as [<-|H] end;
    [..|contradiction];
    unfold Spec.on_sphere, Spec.dist; cbn [vx vy vz];
    apply sqrt_of_square; lra.
Qed.

Lemma octahedron_determines :
  Spec.determines (map Spec.to_mm (map r Example.octahedron)) (V3 0 0 100) 50.
Proof.
  intros [cx cy cz] rad H. rewrite octahedron_mm_eq in H.
  assert (Hrad : 0 <= rad).
  { rewrite <- (H (V3 (1000 * 0.05) (1000 * 0) (1000 * 0.1))) by (now left).
    apply dist_nonneg. }
  assert (Hsq : forall p,
             In p [ V3 (1000 * 0.05) (1000 * 0) (1000 * 0.1);
                    V3 (1000 * -0.05) (1000 * 0) (1000 * 0.1);
                    V3 (1000 * 0) (1000 * 0.05) (1000 * 0.1);
                    V3 (1000 * 0) (1000 * -0.05) (1000 * 0.1);
                    V3 (1000 * 0) (1000 * 0) (1000 * 0.15);
                    V3 (1000 * 0) (1000 * 0) (1000 * 0.05) ] ->
             (vx p - cx) ^ 2 + (vy p - cy) ^ 2 + (vz p - cz) ^ 2 = rad * rad).
  { intros p Hp. pose proof (dist_square p (V3 cx cy cz)) as Hd.
    cbn [vx vy vz] in Hd. rewrite <- Hd. now rewrite (H p Hp). }
  pose proof (Hsq _ (or_introl eq_refl)) as H1.
  pose proof (Hsq _ (or_intror (or_introl eq_refl))) as H2.
  pose proof (Hsq _ (or_intror (or_intror (or_introl eq_refl)))) as H3.
  pose proof (Hsq _ (or_intror (or_intror (or_intror (or_introl eq_refl))))) as H4.
  pose proof (Hsq _ (or_intror (or_intror (or_intror (or_intror (or_introl eq_refl)))))) as H5.
  pose proof (Hsq _ (or_intror (or_intror (or_intror (or_intror (or_intror (or_introl eq_refl))))))) as H6.
  cbn [vx vy vz] in H1, H2, H3, H4, H5, H6. clear Hsq H.
  assert (Hx : cx = 0) by lra.
  assert (Hy : cy = 0) by lra.
  assert (Hz : cz = 100) by lra.
  subst cx cy cz. split; [reflexivity|]. nra.
Qed.

(** *** A pure translation *)




(* ------------------------------------------------------------------ *)
(** ** Spheres through the points *)

(** A single point does not determine a sphere: around every center, the
    sphere through the point is a zero of the objective. *)
Lemma objective_single_point (p c : vec3) :
  Maxfilter.cost_fun (Np.r_ c (Spec.dist p c)) [p] = 0.
Proof.
  apply cost_fun_on_sphere. intros q [<-|[]]. reflexivity.
Qed.

(** The y cut of the five head-side vertices with [ylim = (-0.01, 0.07)]:
    the vertex at y = -0.05 goes, the others stay. *)
Example cut_octahedron_y :
  Maxfilter.cut (Some (PySeq [-0.01; 0.07])) vy (map r Example.octahedron) =
  ret [ V3 0.05 0 0.1; V3 (-0.05) 0 0.1; V3 0 0.05 0.1;
        V3 0 0 0.15; V3 0 0 0.05 ].
Proof.
  rewrite (cut_range (Some (-0.01, 0.07))). f_equal.
  unfold Spec.range_filter, Example.octahedron, Example.extra. cbn [map r].
  repeat first
    [ rewrite filter_cons_true
        by (unfold Spec.strictly_between; cbn [fst snd vy]; eval_Rltb; reflexivity)
    | rewrite filter_cons_false
        by (unfold Spec.strictly_between; cbn [fst snd vy]; eval_Rltb; reflexivity) ].
  reflexivity.
Qed.

(* ------------------------------------------------------------------ *)
(** ** Further properties of [fit_sphere_to_headshape] *)







Lemma zero_line_det m : has_zero_line m -> Np.det m = 0.
Proof.
  destruct m as [[a0 a1 a2 a3] [a4 a5 a6 a7] [a8 a9 a10 a11] [a12 a13 a14 a15]].
  unfold has_zero_line, Np.col. cbn [Np.row0 Np.row1 Np.row2 Np.row3 c0 c1 c2 c3].
  intros H.
  repeat match type of H with _ \/ _ => destruct H as [H|H] end;
    injection H as -> -> -> ->; unfold Np.det; cbn; ring.
Qed.

(** X2.  A transform tagged device to head whose matrix has a row or a
    column of zeros (the LU factorisation of [linalg.inv] then meets a
    pivot that is exactly zero): with at least one selected point the
    minimiser is called once and the call then ends in [LinAlgError]. *)
Theorem fit_singular_transform_raises
    (fmin_powell : (vec4 -> list vec3 -> R) -> vec4 -> list vec3 -> bool -> vec4)
    (info : Info) (ylim zlim : option pyarg) (verbose : pyval)
    (hsp : list vec3) :
  Maxfilter.select_hsp info ylim zlim = ret hsp ->
  hsp <> [] ->
  device_to_head info ->
  has_zero_line (trans (dev_head_t info)) ->
  outcome (Maxfilter.fit_sphere_to_headshape fmin_powell info ylim zlim verbose)
    = Raise LinAlgError
  /\ exists x0,
      trace (Maxfilter.fit_sphere_to_headshape fmin_powell info ylim zlim verbose)
      = [FminPowell x0 (map Spec.to_mm hsp) (truthy verbose)].
Proof.
  intros Hsel Hne Htags Hzero.
  destruct (fit_steps fmin_powell info _ _ verbose _ Hsel Hne) as (x0 & _ & Hfit).
  cbv zeta in Hfit. rewrite Hfit, map_scale3_to_mm.
  rewrite to_device_tags_ok by assumption.
  destruct (inv_outcome (trans (dev_head_t info))) as [[mi Hinv]|Hinv].
  - exfalso. apply zero_line_det in Hzero.
    apply (invertible_det (trans (dev_head_t info))); [|exact Hzero].
    exists mi. now apply inv_is_inverse.
  - rewrite Hinv. split; [reflexivity|]. now exists x0.
Qed.

Lemma between_one_element lo v :
  Maxfilter.between (PySeq [lo]) v =
  if Rgtb v lo then raise IndexError else ret false.
Proof.
  unfold Maxfilter.between. cbn [getitem nth_error]. rewrite bind_ret_l.
  destruct (Rgtb v lo); reflexivity.
Qed.

(** X3.  Limits of the wrong shape.  A float, or an empty sequence, fails
    on the first point ([TypeError], [IndexError]) and is harmless on an
    empty list.  A one-element sequence [(lo,)] fails with [IndexError]
    exactly when some point lies above [lo]; otherwise the cut drops every
    point.  Elements after the second are never read. *)
Theorem cut_with_malformed_limit (coord : vec3 -> R) (hsp : list vec3) :
  (forall x,
      Maxfilter.cut (Some (PyFloat x)) coord hsp =
      match hsp with [] => ret [] | _ :: _ => raise TypeError end)
  /\ Maxfilter.cut (Some (PySeq [])) coord hsp =
     match hsp with [] => ret [] | _ :: _ => raise IndexError end
  /\ (forall lo,
        Maxfilter.cut (Some (PySeq [lo])) coord hsp =
        if existsb (fun p => Rgtb (coord p) lo) hsp
        then raise IndexError else ret [])
  /\ (forall lo hi rest,
        Maxfilter.cut (Some (PySeq (lo :: hi :: rest))) coord hsp =
        Maxfilter.cut (Some (PySeq [lo; hi])) coord hsp).
Proof.
  split; [|split; [|split]].
  - intros x. now destruct hsp.
  - now destruct hsp.
  - intros lo. cbn [Maxfilter.cut].
    induction hsp as [|p t IH]; cbn [comprehension existsb]; [reflexivity|].
    rewrite between_one_element.
    destruct (Rgtb (coord p) lo); cbn [orb]; [reflexivity|].
    rewrite bind_ret_l, IH.
    destruct (existsb _ t); [reflexivity|now rewrite bind_ret_l].
  - intros lo hi rest. reflexivity.
Qed.

Lemma filter_swap {A} (f g : A -> bool) l :
  filter f (filter g l) = filter g (filter f l).
Proof.
  induction l as [|a t IH]; cbn; [reflexivity|].
  destruct (f a) eqn:Ef, (g a) eqn:Eg; cbn; rewrite ?Ef, ?Eg, IH; reflexivity.
Qed.

(** X4.  With (min, max) pairs the two cuts commute: cutting by z first
    and by y second selects the same points, in the same order, as the
    order of the code. *)
Theorem range_cuts_commute (y_range z_range : R * R) (hsp : list vec3) :
  exists kept,
    (l <- Maxfilter.cut (range_arg (Some y_range)) vy hsp ;;
     Maxfilter.cut (range_arg (Some z_range)) vz l) = ret kept
    /\ (l <- Maxfilter.cut (range_arg (Some z_range)) vz hsp ;;
        Maxfilter.cut (range_arg (Some y_range)) vy l) = ret kept.
Proof.
  eexists. rewrite !cut_range, !bind_ret_l, !cut_range.
  split; [reflexivity|]. cbn [Spec.range_filter]. now rewrite filter_swap.
Qed.

(** X5.  The starting point of any non-empty point set: the center is on
    the z axis, the radius is not negative, and the top of the starting
    sphere is at the highest point (center_z + radius = max z). *)
Theorem initial_guess_shape (hsp : list vec3) :
  hsp <> [] ->
  exists x0,
    Maxfilter.initial_guess hsp = ret x0 /\
    c0 x0 = 0 /\ c1 x0 = 0 /\ 0 <= c3 x0 /\
    Spec.is_max (c2 x0 + c3 x0) (map vz hsp).
Proof.
  intros Hne.
  destruct (initial_guess_nonempty hsp Hne)
    as (xmax & xmin & ymax & ymin & zmax & Hxmax & Hxmin & Hymax & Hymin & Hzmax & Hig).
  cbv zeta in Hig. eexists. split; [exact Hig|]. cbn [c0 c1 c2 c3].
  split; [reflexivity|]. split; [reflexivity|]. split.
  - assert (xmin <= xmax) by (apply Hxmax, Hxmin).
    assert (ymin <= ymax) by (apply Hymax, Hymin). lra.
  - replace (zmax - _ + _) with zmax by lra. exact Hzmax.
Qed.

(** X6.  One run calls the minimiser at most once and never logs; a run
    that returns a triple has called it exactly once. *)
Theorem fit_calls_minimiser_at_most_once
    (fmin_powell : (vec4 -> list vec3 -> R) -> vec4 -> list vec3 -> bool -> vec4)
    (info : Info) (ylim zlim : option pyarg) (verbose : pyval) :
  let run := Maxfilter.fit_sphere_to_headshape fmin_powell info ylim zlim verbose in
  (trace run = [] \/ exists x0 hsp disp, trace run = [FminPowell x0 hsp disp])
  /\ (forall result, outcome run = Ok result ->
        exists x0 hsp disp, trace run = [FminPowell x0 hsp disp]).
Proof.
  cbv zeta.
  assert (H : (trace (Maxfilter.fit_sphere_to_headshape fmin_powell info ylim zlim verbose) = []
               /\ forall result,
                   outcome (Maxfilter.fit_sphere_to_headshape fmin_powell info ylim zlim verbose)
                   <> Ok result)
              \/ exists x0 hsp disp,
                  trace (Maxfilter.fit_sphere_to_headshape fmin_powell info ylim zlim verbose)
                  = [FminPowell x0 hsp disp]).
  { destruct (select_hsp_cases info ylim zlim) as [[hsp Hsel]|(e & _ & Hsel)].
    - destruct hsp as [|p hsp].
      + left. rewrite (fit_no_points _ _ _ _ _ Hsel). split; [reflexivity|discriminate].
      + right. assert (Hne : p :: hsp <> []) by discriminate.
        destruct (fit_steps fmin_powell info _ _ verbose _ Hsel Hne) as (x0 & _ & Hfit).
        cbv zeta in Hfit. rewrite Hfit. unfold trace at 1. cbn [fst].
        rewrite to_device_trace. eauto.
    - left. rewrite (fit_selection_raises _ _ _ _ _ _ _ Hsel).
      split; [reflexivity|discriminate]. }
  destruct H as [[Ht Hno]|Hone].
  - split; [now left|]. intros result Hok. now apply Hno in Hok.
  - split; [now right|]. intros _ _. exact Hone.
Qed.

(** X7.  The objective is never negative; it is zero exactly at the
    spheres through all points; and with a negative radius it is positive
    as soon as there is a point. *)
Theorem objective_zero_exactly_on_sphere (x : vec4) (hsp : list vec3) :
  0 <= Maxfilter.cost_fun x hsp
  /\ (Maxfilter.cost_fun x hsp = 0 <->
      forall p, In p hsp -> Spec.dist p (V3 (c0 x) (c1 x) (c2 x)) = c3 x)
  /\ (forall p, In p hsp -> c3 x < 0 -> 0 < Maxfilter.cost_fun x hsp).
Proof.
  split; [apply cost_fun_nonneg|]. split; [apply cost_fun_zero_iff|].
  intros p Hp Hneg.
  destruct (Rle_lt_or_eq_dec _ _ (cost_fun_nonneg x hsp)) as [Hpos|Hz];
    [exact Hpos|exfalso].
  symmetry in Hz. rewrite cost_fun_zero_iff in Hz.
  specialize (Hz p Hp). unfold Spec.on_sphere in Hz.
  pose proof (dist_nonneg p (Np.first3 x)). lra.
Qed.

(* ------------------------------------------------------------------ *)
(** ** Further properties of [build_maxfilter_cmd] *)

Lemma append_assoc (a b c : string) : ((a ++ b) ++ c = a ++ (b ++ c))%string.
Proof. induction a as [|ch a IH]; cbn; [reflexivity|now rewrite IH]. Qed.

Lemma begins_with_refl p : begins_with p p.
Proof.
  exists ""%string. induction p as [|ch p IH]; cbn; [reflexivity|now rewrite <- IH].
Qed.

Lemma begins_with_app p s x : begins_with p s -> begins_with p (s ++ x).
Proof. intros [rest ->]. exists (rest ++ x)%string. apply append_assoc. Qed.

Lemma begins_with_nonempty p s :
  p <> ""%string -> begins_with p s -> s <> ""%string.
Proof. intros Hp [rest ->]. destruct p; [congruence|discriminate]. Qed.

Section BuildStages.
Variable fmin_powell :
  (vec4 -> list vec3 -> R) -> vec4 -> list vec3 -> bool -> vec4.
Variable Raw : string -> res Info.
Variable format_f : nat -> R -> string.

(** The method is the sequence of its stages. *)
Lemma build_cmd_stages self a :
  Maxfilter.build_cmd fmin_powell Raw format_f self a =
  (origin_ <- origin_stage fmin_powell Raw self a ;;
   cmd_ <- head_stage format_f a origin_ ;;
   cmd_ <- st_stage format_f a (first_options format_f a cmd_) ;;
   cmd_ <- linefreq_stage a (movement_options a cmd_) ;;
   ret (last_options a cmd_)).
Proof. reflexivity. Qed.
End BuildStages.

Lemma begins_with_trans p s t :
  begins_with p s -> begins_with s t -> begins_with p t.
Proof.
  intros [r1 ->] [r2 ->]. exists (r1 ++ r2)%string. apply append_assoc.
Qed.

Lemma begins_with_app_r s x : begins_with s (s ++ x).
Proof. now exists x. Qed.

(** Close a goal [begins_with c (... c ++ x ++ ...)] through conditionals
    on options and booleans. *)
Ltac begins_with_options :=
  repeat match goal with
         | |- begins_with ?c ?c => apply begins_with_refl
         | |- begins_with _ (if ?b then _ else _) => destruct b
         | |- begins_with _ (match ?x with Some _ => _ | None => _ end) =>
             destruct x
         | |- begins_with _ (_ ++ _) => apply begins_with_app
         end.

Lemma inter_option_cases v c :
  inter_option v c = c \/ inter_option v c = (c ++ " inter ")%string.
Proof.
  destruct v as [| | | |s]; try (left; reflexivity).
  destruct (String.eqb_spec s "inter") as [->|Hne]; [right; reflexivity|].
  left. unfold inter_option.
  repeat match goal with
         | |- match ?x with _ => _ end = _ =>
             destruct x; try reflexivity; try congruence
         end.
Qed.

Lemma inter_option_begins p v c :
  begins_with p c -> begins_with p (inter_option v c).
Proof.
  intros H. destruct (inter_option_cases v c) as [-> | ->];
    [exact H|now apply begins_with_app].
Qed.

Lemma first_options_begins format_f a c :
  begins_with c (first_options format_f a c).
Proof. unfold first_options. cbv zeta. begins_with_options. Qed.

Lemma movement_options_begins a c : begins_with c (movement_options a c).
Proof.
  unfold movement_options. cbv zeta.
  destruct (truthy (Maxfilter.movecomp a)).
  - destruct (Maxfilter.hpicons a); [apply begins_with_app|];
      (destruct (Maxfilter.mv_hpisubt a); [apply begins_with_app|]);
      (destruct (Maxfilter.mv_hp a); [apply begins_with_app|]);
      (destruct (Maxfilter.mv_headpos a); [apply begins_with_app|]);
      apply inter_option_begins; begins_with_options.
  - begins_with_options.
Qed.

Lemma last_options_begins a c : begins_with c (last_options a c).
Proof.
  unfold last_options. cbv zeta.
  destruct (Maxfilter.logfile a) as [[|ch f]|]; begins_with_options.
Qed.

Section BuildCases.
Variable fmin_powell :
  (vec4 -> list vec3 -> R) -> vec4 -> list vec3 -> bool -> vec4.
Variable Raw : string -> res Info.
Variable format_f : nat -> R -> string.

Lemma origin_stage_cases self a :
  (Maxfilter.origin a = Maxfilter.ONone
   /\ raises (origin_stage fmin_powell Raw self a))
  \/ (Maxfilter.origin a <> Maxfilter.ONone
      /\ origin_stage fmin_powell Raw self a = ret (Maxfilter.origin a)).
Proof.
  unfold origin_stage. destruct (Maxfilter.origin a) eqn:Ho.
  - left. split; [reflexivity|apply estimate_origin_raises].
  - right. split; [discriminate|reflexivity].
  - right. split; [discriminate|reflexivity].
  - right. split; [discriminate|reflexivity].
Qed.

Lemma head_stage_cases a o :
  (~ origin_formats o /\ raises (head_stage format_f a o))
  \/ (origin_formats o
      /\ exists c, head_stage format_f a o = ret c
                   /\ begins_with (command_head a) c).
Proof.
  destruct o as [| |s|[y|[|o0 [|o1 [|o2 rest]]]]];
    try (left; split; [intros []|eexists; reflexivity]).
  - right. split; [exact I|]. eexists. split; [reflexivity|].
    unfold command_head. exists " -v "%string.
    now rewrite !append_assoc.
  - right. split; [exact I|]. eexists. split; [reflexivity|].
    unfold command_head. eexists. rewrite !append_assoc. reflexivity.
  - right. split; [exact I|]. eexists. split; [reflexivity|].
    unfold command_head. eexists. rewrite !append_assoc. reflexivity.
Qed.

Lemma format_d_cases v :
  (~ formats_as_d v /\ raises (Maxfilter.format_d v))
  \/ (formats_as_d v /\ exists s, Maxfilter.format_d v = ret s).
Proof.
  destruct v; cbn;
    first [ right; split; [exact I|eexists; reflexivity]
          | left; split; [intros []|eexists; reflexivity] ].
Qed.

Lemma st_stage_cases a c :
  (Maxfilter.st a = true /\ ~ formats_as_d (Maxfilter.st_buflen a)
   /\ raises (st_stage format_f a c))
  \/ ((Maxfilter.st a = true -> formats_as_d (Maxfilter.st_buflen a))
      /\ exists c', st_stage format_f a c = ret c' /\ begins_with c c').
Proof.
  unfold st_stage. destruct (Maxfilter.st a).
  - destruct (format_d_cases (Maxfilter.st_buflen a)) as [[Hn Hr]|[Hy [s Hs]]].
    + left. split; [reflexivity|]. split; [exact Hn|]. now apply raises_bind_l.
    + right. split; [intros _; exact Hy|]. rewrite Hs, bind_ret_l.
      eexists. split; [reflexivity|]. begins_with_options.
  - right. split; [discriminate|]. eexists. split; [reflexivity|].
    apply begins_with_refl.
Qed.

Lemma linefreq_stage_cases a c :
  ((exists f, Maxfilter.linefreq a = Some f /\ ~ formats_as_d f)
   /\ raises (linefreq_stage a c))
  \/ ((forall f, Maxfilter.linefreq a = Some f -> formats_as_d f)
      /\ exists c', linefreq_stage a c = ret c' /\ begins_with c c').
Proof.
  unfold linefreq_stage. destruct (Maxfilter.linefreq a) as [f|].
  - destruct (format_d_cases f) as [[Hn Hr]|[Hy [s Hs]]].
    + left. split; [now exists f|now apply raises_bind_l].
    + right. split; [intros f' [= <-]; exact Hy|]. rewrite Hs, bind_ret_l.
      eexists. split; [reflexivity|]. begins_with_options.
  - right. split; [discriminate|]. eexists. split; [reflexivity|].
    apply begins_with_refl.
Qed.

(** Either a stage raises, or every stage returns and the command is the
    head followed by the options. *)
Lemma build_cmd_cases self a :
  (raises (Maxfilter.build_cmd fmin_powell Raw format_f self a)
   /\ ~ (origin_formats (Maxfilter.origin a)
         /\ (Maxfilter.st a = true -> formats_as_d (Maxfilter.st_buflen a))
         /\ (forall f, Maxfilter.linefreq a = Some f -> formats_as_d f)))
  \/ ((origin_formats (Maxfilter.origin a)
       /\ (Maxfilter.st a = true -> formats_as_d (Maxfilter.st_buflen a))
       /\ (forall f, Maxfilter.linefreq a = Some f -> formats_as_d f))
      /\ exists c,
          Maxfilter.build_cmd fmin_powell Raw format_f self a = ret c
          /\ begins_with (command_head a) c).
Proof.
  rewrite build_cmd_stages.
  destruct (origin_stage_cases self a) as [[Ho Hr]|[Ho ->]].
  { left. split; [now apply raises_bind_l|]. rewrite Ho. intros [[] _]. }
  rewrite bind_ret_l.
  destruct (head_stage_cases a (Maxfilter.origin a)) as [[Hn Hr]|[Hof (c0 & -> & Hb0)]].
  { left. split; [now apply raises_bind_l|]. intros [H _]. now apply Hn. }
  rewrite bind_ret_l.
  destruct (st_stage_cases a (first_options format_f a c0))
    as [(Hst & Hn & Hr)|[Hstf (c1 & -> & Hb1)]].
  { left. split; [now apply raises_bind_l|]. intros (_ & H & _). now apply Hn, H. }
  rewrite bind_ret_l.
  destruct (linefreq_stage_cases a (movement_options a c1))
    as [[(f & Hf & Hn) Hr]|[Hlf (c2 & -> & Hb2)]].
  { left. split; [now apply raises_bind_l|]. intros (_ & _ & H). now apply Hn, H. }
  rewrite bind_ret_l.
  right. split; [now repeat split|].
  eexists. split; [reflexivity|].
  eapply begins_with_trans; [exact Hb0|].
  eapply begins_with_trans; [apply first_options_begins|].
  eapply begins_with_trans; [exact Hb1|].
  eapply begins_with_trans; [apply movement_options_begins|].
  eapply begins_with_trans; [exact Hb2|].
  apply last_options_begins.
Qed.
End BuildCases.

Lemma command_head_nonempty a : command_head a <> ""%string.
Proof.
  unfold command_head. destruct (Maxfilter.maxfilter_bin a); discriminate.
Qed.

(** X9.  When the call returns.  [build_maxfilter_cmd] returns exactly
    when [origin] is [False], a string or a sequence of at least three
    floats, [st_buflen] is an int whenever [st] is set, and [linefreq] is
    an int whenever it is given; in every other case it raises. *)
Theorem build_returns_iff
    (fmin_powell : (vec4 -> list vec3 -> R) -> vec4 -> list vec3 -> bool -> vec4)
    (Raw : string -> res Info) (format_f : nat -> R -> string)
    (self : Maxfilter.Self) (a : Maxfilter.Args) :
  outcome (fst (Maxfilter.build_maxfilter_cmd fmin_powell Raw format_f self a))
    = Ok tt
  <-> (origin_formats (Maxfilter.origin a)
       /\ (Maxfilter.st a = true -> formats_as_d (Maxfilter.st_buflen a))
       /\ (forall f, Maxfilter.linefreq a = Some f -> formats_as_d f)).
Proof.
  rewrite build_outcome.
  destruct (build_cmd_cases fmin_powell Raw format_f self a)
    as [[[e He] Hn]|[Hy (c & Hc & _)]].
  - rewrite He. split; [discriminate|]. intros H. now apply Hn in H.
  - rewrite Hc. split; [intros _; exact Hy|reflexivity].
Qed.

(** X10.  What a returning call leaves: nothing was logged or fitted, only
    [cmd] has changed, and the new [cmd] is not empty: it starts with the
    binary, [-f], the input file, [-o] and the output file. *)
Theorem build_sets_command
    (fmin_powell : (vec4 -> list vec3 -> R) -> vec4 -> list vec3 -> bool -> vec4)
    (Raw : string -> res Info) (format_f : nat -> R -> string)
    (self : Maxfilter.Self) (a : Maxfilter.Args) :
  outcome (fst (Maxfilter.build_maxfilter_cmd fmin_powell Raw format_f self a))
    = Ok tt ->
  exists c,
    Maxfilter.build_maxfilter_cmd fmin_powell Raw format_f self a
      = (([], Ok tt), Maxfilter.MkSelf (Maxfilter.proj_code self) c
                        (Maxfilter.logger_info self))
    /\ begins_with
         (Maxfilter.maxfilter_bin a ++ " -f " ++ Maxfilter.in_fname a
          ++ " -o " ++ Maxfilter.out_fname a) c
    /\ c <> ""%string.
Proof.
  rewrite build_outcome. unfold Maxfilter.build_maxfilter_cmd.
  destruct (build_cmd_cases fmin_powell Raw format_f self a)
    as [[[e He] _]|[_ (c & Hc & Hb)]].
  - rewrite He. discriminate.
  - rewrite Hc. intros _. exists c. split; [reflexivity|]. split; [exact Hb|].
    exact (begins_with_nonempty _ _ (command_head_nonempty a) Hb).
Qed.

(** X11.  [mv_hpistep] and [n_threads] are never read: the call does the
    same whatever their values. *)
Theorem build_ignores_hpistep_and_threads
    (fmin_powell : (vec4 -> list vec3 -> R) -> vec4 -> list vec3 -> bool -> vec4)
    (Raw : string -> res Info) (format_f : nat -> R -> string)
    (self : Maxfilter.Self) (a : Maxfilter.Args)
    (hpistep : option R) (threads : option Z) :
  Maxfilter.build_maxfilter_cmd fmin_powell Raw format_f self
    (with_hpistep_threads a hpistep threads)
  = Maxfilter.build_maxfilter_cmd fmin_powell Raw format_f self a.
Proof. reflexivity. Qed.

(** X12.  Options of a block that is switched off are not read: with
    [st] false the call does the same whatever [st_buflen] and [st_corr]
    are, and with a false [movecomp] whatever [mv_headpos], [mv_hp],
    [mv_hpisubt] and [hpicons] are. *)
Theorem build_ignores_disabled_options
    (fmin_powell : (vec4 -> list vec3 -> R) -> vec4 -> list vec3 -> bool -> vec4)
    (Raw : string -> res Info) (format_f : nat -> R -> string)
    (self : Maxfilter.Self) (a : Maxfilter.Args) :
  (Maxfilter.st a = false ->
   forall buflen corr,
     Maxfilter.build_maxfilter_cmd fmin_powell Raw format_f self
       (with_st_options a buflen corr)
     = Maxfilter.build_maxfilter_cmd fmin_powell Raw format_f self a)
  /\ (truthy (Maxfilter.movecomp a) = false ->
      forall headpos hp hpisubt hpicons,
        Maxfilter.build_maxfilter_cmd fmin_powell Raw format_f self
          (with_movecomp_options a headpos hp hpisubt hpicons)
        = Maxfilter.build_maxfilter_cmd fmin_powell Raw format_f self a).
Proof.
  split.
  - intros Hst buflen corr. unfold Maxfilter.build_maxfilter_cmd.
    rewrite !build_cmd_stages.
    assert (Hstage : forall c,
               st_stage format_f (with_st_options a buflen corr) c
               = st_stage format_f a c).
    { intros c. unfold st_stage. cbn [with_st_options Maxfilter.st].
      now rewrite Hst. }
    change (origin_stage fmin_powell Raw self (with_st_options a buflen corr))
      with (origin_stage fmin_powell Raw self a).
    change (head_stage format_f (with_st_options a buflen corr))
      with (head_stage format_f a).
    change (first_options format_f (with_st_options a buflen corr))
      with (first_options format_f a).
    destruct (origin_stage fmin_powell Raw self a) as [t [e|o]];
      [reflexivity|]. cbn [bind].
    destruct (head_stage format_f a o) as [t' [e|c]]; [reflexivity|].
    cbn [bind]. rewrite Hstage. reflexivity.
  - intros Hmv headpos hp hpisubt hpicons. unfold Maxfilter.build_maxfilter_cmd.
    rewrite !build_cmd_stages.
    assert (Hopts : forall c,
               movement_options (with_movecomp_options a headpos hp hpisubt hpicons) c
               = movement_options a c).
    { intros c. unfold movement_options.
      cbn [with_movecomp_options Maxfilter.movecomp Maxfilter.mv_trans].
      now rewrite Hmv. }
    change (origin_stage fmin_powell Raw self
              (with_movecomp_options a headpos hp hpisubt hpicons))
      with (origin_stage fmin_powell Raw self a).
    change (head_stage format_f (with_movecomp_options a headpos hp hpisubt hpicons))
      with (head_stage format_f a).
    change (first_options format_f (with_movecomp_options a headpos hp hpisubt hpicons))
      with (first_options format_f a).
    change (st_stage format_f (with_movecomp_options a headpos hp hpisubt hpicons))
      with (st_stage format_f a).
    destruct (origin_stage fmin_powell Raw self a) as [t [e|o]];
      [reflexivity|]. cbn [bind].
    destruct (head_stage format_f a o) as [t' [e|c]]; [reflexivity|].
    cbn [bind].
    destruct (st_stage format_f a (first_options format_f a c)) as [t'' [e|c']];
      [reflexivity|].
    cbn [bind]. rewrite Hopts. reflexivity.
Qed.

(* ------------------------------------------------------------------ *)
(** ** Properties of the constructor and of [submit_to_isis] *)

Lemma init_step path_exists lg proj_code verbose :
  path_exists ("/projects/" ++ proj_code)%string = true ->
  Cluster.init path_exists lg proj_code verbose =
  (inr (Maxfilter.MkSelf proj_code "" verbose),
   Cluster.MkLogger (S (Cluster.handlers lg)) verbose).
Proof. intros H. unfold Cluster.init. now rewrite H. Qed.

(** X13.  Every construction adds one more stdout handler to the one
    shared logger and sets its level: after the objects of [reqs] have
    been constructed, each INFO record is written once per object ever
    constructed, provided the last object is verbose, and not at all
    otherwise. *)
Theorem constructions_stack_handlers (path_exists : string -> bool)
    (lg : Cluster.Logger) (reqs : list (string * bool)) (msg : string) :
  (forall req, In req reqs ->
               path_exists ("/projects/" ++ fst req)%string = true) ->
  reqs <> [] ->
  Cluster.handlers (Cluster.init_all path_exists lg reqs)
    = (Cluster.handlers lg + List.length reqs)%nat
  /\ Cluster.written (Cluster.init_all path_exists lg reqs) msg
     = if snd (last reqs (EmptyString, false))
       then repeat msg (Cluster.handlers lg + List.length reqs)
       else [].
Proof.
  revert lg. induction reqs as [|[proj_code verbose] rest IH]; intros lg Hex Hne;
    [congruence|].
  cbn [Cluster.init_all].
  rewrite init_step by (apply (Hex (proj_code, verbose)); now left).
  cbn [snd]. destruct rest as [|req rest].
  - cbn. unfold Cluster.written. cbn.
    replace (Cluster.handlers lg + 1)%nat with (S (Cluster.handlers lg))
      by (rewrite Nat.add_comm; reflexivity).
    split; reflexivity.
  - destruct (IH (Cluster.MkLogger (S (Cluster.handlers lg)) verbose))
      as [Hh Hw]; [intros r Hr; apply Hex; now right|discriminate|].
    cbn [Cluster.handlers] in Hh, Hw.
    replace (Cluster.handlers lg + List.length ((proj_code, verbose) :: req :: rest))%nat
      with (S (Cluster.handlers lg) + List.length (req :: rest))%nat
      by (cbn [List.length]; rewrite <- !plus_n_Sm; reflexivity).
    split; [exact Hh|]. rewrite Hw. reflexivity.
Qed.

Section SubmitProps.
Variable World : Type.
Variable os_system : World -> string -> Z * World.

Lemma submit_valid self z fake script w :
  Maxfilter.cmd self <> EmptyString ->
  (1 <= z <= 12)%Z ->
  Cluster.submit_to_isis World os_system self (Cluster.NInt z) fake script w =
  let submit_script :=
    match script with
    | None => Cluster.default_submit_script
    | Some s => s
    end in
  let probe := (submit_script ++ " 2>&1 > /dev/null")%string in
  let (status, w1) := os_system w probe in
  if Z.eqb (Z.shiftr status 8) 127
  then (([Cluster.System probe],
         Some (Cluster.NameError
                 ("submit script " ++ submit_script ++ " not found"))),
        w1)
  else
    let t := [Cluster.System probe]
             ++ Cluster.log self ("Command to submit:" ++ Cluster.newline
                                  ++ Maxfilter.cmd self) in
    let submit_cmd :=
      String.concat " "
        [submit_script; Maxfilter.string_of_Z z; Maxfilter.cmd self] in
    if negb fake then
      let (st, w2) := os_system w1 submit_cmd in
      if negb (Z.eqb st 0)
      then ((t ++ [Cluster.System submit_cmd],
             Some (Cluster.RuntimeError
                     ("qsub returned non-zero exit status "
                      ++ Maxfilter.string_of_Z st))),
            w2)
      else ((t ++ [Cluster.System submit_cmd], None), w2)
    else
      ((t ++ [Cluster.Print "Fake run, nothing executed. The command built is:";
              Cluster.Print submit_cmd]
          ++ Cluster.log self "Nothing executed.",
        None),
       w1).
Proof.
  intros Hcmd [Hlo Hhi]. unfold Cluster.submit_to_isis.
  destruct (String.eqb_spec (Maxfilter.cmd self) EmptyString) as [He|_];
    [contradiction|].
  cbn [Cluster.gt Cluster.lt Cluster.is_int negb orb].
  destruct (Z.ltb_spec 12 z); [lia|].
  destruct (Z.ltb_spec z 1); [lia|]. reflexivity.
Qed.

Lemma submit_invalid self n fake script w :
  Maxfilter.cmd self <> EmptyString ->
  ~ (exists z, n = Cluster.NInt z /\ (1 <= z <= 12)%Z) ->
  exists msg,
    Cluster.submit_to_isis World os_system self n fake script w =
    (([], Some (Cluster.ValueError msg)), w).
Proof.
  intros Hcmd Hn. unfold Cluster.submit_to_isis.
  destruct (String.eqb_spec (Maxfilter.cmd self) EmptyString) as [He|_];
    [contradiction|].
  destruct (Cluster.gt n 12) eqn:Hgt; [eauto|].
  destruct (Cluster.lt n 1 || negb (Cluster.is_int n)) eqn:Hlt; [eauto|].
  exfalso. apply Hn. destruct n as [z|x];
    [|cbn in Hlt; rewrite orb_true_r in Hlt; discriminate].
  exists z. split; [reflexivity|].
  cbn in Hgt, Hlt. rewrite orb_false_r in Hlt.
  apply Z.ltb_ge in Hgt, Hlt. lia.
Qed.
End SubmitProps.

Section SubmitClaims.
Variable World : Type.
Variable os_system : World -> string -> Z * World.

(** [n_jobs] is an int between 1 and 12, or it is not. *)
Lemma valid_jobs_dec n :
  (exists z, n = Cluster.NInt z /\ (1 <= z <= 12)%Z)
  \/ ~ (exists z, n = Cluster.NInt z /\ (1 <= z <= 12)%Z).
Proof.
  destruct n as [z|x]; [|right; intros (z & H & _); discriminate].
  destruct (Z_le_dec 1 z) as [Hlo|Hlo], (Z_le_dec z 12) as [Hhi|Hhi];
    [left; exists z; now repeat split|..];
    right; intros (z' & [= <-] & H); lia.
Qed.

Lemma submit_guard_passed self n fake script w :
  Maxfilter.cmd self <> EmptyString ->
  snd (fst (Cluster.submit_to_isis World os_system self n fake script w))
  <> Some (Cluster.NameError "cmd to submit is not defined yet").
Proof.
  intros Hcmd.
  destruct (valid_jobs_dec n) as [(z & -> & Hz)|Hn].
  - rewrite submit_valid by assumption. cbv zeta.
    destruct (os_system w _) as [status w1].
    destruct (Z.eqb (Z.shiftr status 8) 127); [cbn; discriminate|].
    destruct fake; cbn [negb]; [cbn; discriminate|].
    destruct (os_system w1 _) as [st w2].
    destruct (negb (Z.eqb st 0)); cbn; discriminate.
  - destruct (submit_invalid World os_system self n fake script w Hcmd Hn)
      as [msg ->].
    cbn. discriminate.
Qed.
End SubmitClaims.

(** X14.  A freshly constructed object has no command: submitting it
    raises [NameError] at once, whatever the other arguments; no shell
    command is run and the machine is untouched. *)
Theorem submit_before_build_raises (path_exists : string -> bool)
    (World : Type) (os_system : World -> string -> Z * World)
    (lg lg' : Cluster.Logger) (proj_code : string) (verbose : bool)
    (self : Maxfilter.Self) (n_jobs : Cluster.number) (fake : bool)
    (submit_script : option string) (w : World) :
  Cluster.init path_exists lg proj_code verbose = (inr self, lg') ->
  Cluster.submit_to_isis World os_system self n_jobs fake submit_script w
  = (([], Some (Cluster.NameError "cmd to submit is not defined yet")), w).
Proof.
  unfold Cluster.init. destruct (negb _); [discriminate|].
  intros [= <- _]. reflexivity.
Qed.

(** X15.  After a call of [build_maxfilter_cmd] that returned, the
    object has a command: submitting it never raises the [NameError] of
    the missing command. *)
Theorem submit_after_build_has_command
    (fmin_powell : (vec4 -> list vec3 -> R) -> vec4 -> list vec3 -> bool -> vec4)
    (Raw : string -> res Info) (format_f : nat -> R -> string)
    (World : Type) (os_system : World -> string -> Z * World)
    (self : Maxfilter.Self) (a : Maxfilter.Args)
    (n_jobs : Cluster.number) (fake : bool) (submit_script : option string)
    (w : World) :
  outcome (fst (Maxfilter.build_maxfilter_cmd fmin_powell Raw format_f self a))
    = Ok tt ->
  snd (fst (Cluster.submit_to_isis World os_system
              (snd (Maxfilter.build_maxfilter_cmd fmin_powell Raw format_f self a))
              n_jobs fake submit_script w))
  <> Some (Cluster.NameError "cmd to submit is not defined yet").
Proof.
  rewrite build_outcome. unfold Maxfilter.build_maxfilter_cmd.
  destruct (build_cmd_cases fmin_powell Raw format_f self a)
    as [[[e He] _]|[_ (c & Hc & Hb)]].
  - rewrite He. discriminate.
  - rewrite Hc. intros _. cbn [snd ret]. apply submit_guard_passed.
    cbn [Maxfilter.cmd Maxfilter.set_cmd].
    exact (begins_with_nonempty _ _ (command_head_nonempty a) Hb).
Qed.


(** X17.  When the submission returns.  [submit_to_isis] returns exactly
    when the object has a command, [n_jobs] is an int between 1 and 12,
    the probe of the submit script does not end with exit code 127, and
    either the run is fake or the submitted command ends with status 0. *)
Theorem submit_returns_iff
    (World : Type) (os_system : World -> string -> Z * World)
    (self : Maxfilter.Self) (n_jobs : Cluster.number) (fake : bool)
    (submit_script : option string) (w : World) :
  snd (fst (Cluster.submit_to_isis World os_system self n_jobs fake
              submit_script w)) = None
  <-> (Maxfilter.cmd self <> EmptyString
       /\ exists z,
           n_jobs = Cluster.NInt z /\ (1 <= z <= 12)%Z /\
           let script :=
             match submit_script with
             | None => Cluster.default_submit_script
             | Some s => s
             end in
           let probe := os_system w (script ++ " 2>&1 > /dev/null")%string in
           Z.shiftr (fst probe) 8 <> 127%Z /\
           (fake = true \/
            fst (os_system (snd probe)
                   (String.concat " "
                      [script; Maxfilter.string_of_Z z; Maxfilter.cmd self]))
            = 0%Z)).
Proof.
  destruct (String.eqb_spec (Maxfilter.cmd self) EmptyString) as [He|Hcmd].
  { unfold Cluster.submit_to_isis. rewrite He. cbn.
    split; [discriminate|]. intros [H _]. now contradiction H. }
  destruct (valid_jobs_dec n_jobs) as [(z & -> & Hz)|Hn].
  - rewrite submit_valid by assumption. cbv zeta.
    destruct (os_system w _) as [status w1]. cbn [fst snd].
    destruct (Z.eqb_spec (Z.shiftr status 8) 127) as [Hp|Hp].
    + cbn. split; [discriminate|]. intros (_ & z' & [= <-] & _ & Hne & _).
      contradiction.
    + destruct fake; cbn [negb].
      * cbn [fst snd]. split; [|reflexivity]. intros _.
        split; [assumption|]. exists z. repeat split; try apply Hz; auto.
      * destruct (os_system w1 _) as [st w2] eqn:Hsub.
        destruct (Z.eqb_spec st 0) as [Hst|Hst]; cbn [negb fst snd].
        -- split; [|reflexivity]. intros _.
           split; [assumption|]. exists z. repeat split; try apply Hz; auto.
           right. now rewrite Hsub.
        -- split; [discriminate|].
           intros (_ & z' & [= <-] & _ & _ & [Hf|Hzero]); [discriminate|].
           rewrite Hsub in Hzero. contradiction.
  - destruct (submit_invalid World os_system self n_jobs fake submit_script w
                Hcmd Hn) as [msg ->].
    cbn. split; [discriminate|]. intros (_ & z & Hz & Hr & _).
    exfalso. apply Hn. now exists z.
Qed.

(** X18.  A fake run never runs the built command: the only shell
    command it runs is the probe of the submit script, and when it returns
    it has run that probe, so the submit script itself is started once
    even though nothing is submitted. *)
Theorem fake_submit_runs_only_probe
    (World : Type) (os_system : World -> string -> Z * World)
    (self : Maxfilter.Self) (n_jobs : Cluster.number)
    (submit_script : option string) (w : World) :
  let run :=
    Cluster.submit_to_isis World os_system self n_jobs true submit_script w in
  let probe :=
    (match submit_script with
     | None => Cluster.default_submit_script
     | Some s => s
     end ++ " 2>&1 > /dev/null")%string in
  (forall c, In (Cluster.System c) (fst (fst run)) -> c = probe)
  /\ (snd (fst run) = None ->
      In (Cluster.System probe) (fst (fst run))
      /\ snd run = snd (os_system w probe)).
Proof.
  cbv zeta.
  destruct (String.eqb_spec (Maxfilter.cmd self) EmptyString) as [He|Hcmd].
  { unfold Cluster.submit_to_isis. rewrite He. cbn.
    split; [intros c []|discriminate]. }
  destruct (valid_jobs_dec n_jobs) as [(z & -> & Hz)|Hn].
  - rewrite submit_valid by assumption. cbv zeta.
    destruct (os_system w _) as [status w1]. cbn [negb snd].
    destruct (Z.eqb (Z.shiftr status 8) 127); cbn [fst snd].
    + split; [|discriminate]. intros c [[= <-]|[]]. reflexivity.
    + unfold Cluster.log. split.
      * intros c Hin. destruct (Maxfilter.logger_info self); cbn in Hin;
          repeat match type of Hin with
                 | _ \/ _ => destruct Hin as [Hin|Hin]
                 end; try discriminate; try contradiction;
          now injection Hin as <-.
      * intros _. split; [now left|reflexivity].
  - destruct (submit_invalid World os_system self n_jobs true submit_script w
                Hcmd Hn) as [msg ->].
    cbn. split; [intros c []|discriminate].
Qed.

(* ------------------------------------------------------------------ *)
(** ** The further properties at concrete inputs *)




Lemma flattening_zero_row : has_zero_line (trans flattening).
Proof. right. right. left. reflexivity. Defined.

(** X2 at the octahedron with the flattening transform. *)
Lemma fit_singular_transform_raises_witness :
  Maxfilter.select_hsp (MkInfo Example.octahedron flattening) None None
    = ret (map r Example.octahedron)
  /\ map r Example.octahedron <> []
  /\ device_to_head (MkInfo Example.octahedron flattening)
  /\ has_zero_line (trans (dev_head_t (MkInfo Example.octahedron flattening)))
  /\ outcome (Maxfilter.fit_sphere_to_headshape Example.keep_start
                (MkInfo Example.octahedron flattening) None None VNone)
     = Raise LinAlgError
  /\ exists x0,
      trace (Maxfilter.fit_sphere_to_headshape Example.keep_start
               (MkInfo Example.octahedron flattening) None None VNone)
      = [FminPowell x0 (map Spec.to_mm (map r Example.octahedron))
           (truthy VNone)].
Proof.
  split; [apply select_octahedron|]. split; [discriminate|].
  split; [split; reflexivity|]. split; [apply flattening_zero_row|].
  apply (fit_singular_transform_raises Example.keep_start
           (MkInfo Example.octahedron flattening) None None VNone
           (map r Example.octahedron)).
  - apply select_octahedron.
  - discriminate.
  - split; reflexivity.
  - apply flattening_zero_row.
Defined.

(** X5 at the octahedron in millimeters. *)
Lemma initial_guess_shape_witness :
  map Spec.to_mm (map r Example.octahedron) <> []
  /\ exists x0,
      Maxfilter.initial_guess (map Spec.to_mm (map r Example.octahedron))
        = ret x0 /\
      c0 x0 = 0 /\ c1 x0 = 0 /\ 0 <= c3 x0 /\
      Spec.is_max (c2 x0 + c3 x0)
        (map vz (map Spec.to_mm (map r Example.octahedron))).
Proof.
  split; [discriminate|].
  apply (initial_guess_shape (map Spec.to_mm (map r Example.octahedron))).
  discriminate.
Defined.

(** X10 at the default arguments. *)
Lemma build_sets_command_witness :
  outcome (fst (Maxfilter.build_maxfilter_cmd Example.keep_start
                  Example.read_octahedron Example.no_digits Example.fresh
                  (Maxfilter.default_args "in.fif" "out.fif")))
    = Ok tt
  /\ exists c,
      Maxfilter.build_maxfilter_cmd Example.keep_start Example.read_octahedron
        Example.no_digits Example.fresh
        (Maxfilter.default_args "in.fif" "out.fif")
      = (([], Ok tt),
         Maxfilter.MkSelf (Maxfilter.proj_code Example.fresh) c
           (Maxfilter.logger_info Example.fresh))
      /\ begins_with
           (Maxfilter.maxfilter_bin (Maxfilter.default_args "in.fif" "out.fif")
            ++ " -f "
            ++ Maxfilter.in_fname (Maxfilter.default_args "in.fif" "out.fif")
            ++ " -o "
            ++ Maxfilter.out_fname (Maxfilter.default_args "in.fif" "out.fif")) c
      /\ c <> EmptyString.
Proof.
  split; [reflexivity|].
  apply (build_sets_command Example.keep_start Example.read_octahedron
           Example.no_digits Example.fresh
           (Maxfilter.default_args "in.fif" "out.fif")).
  reflexivity.
Defined.

(** X12 at the default arguments: both blocks are switched off. *)
Lemma build_ignores_disabled_options_witness :
  (Maxfilter.st (Maxfilter.default_args "in.fif" "out.fif") = false
   /\ Maxfilter.build_maxfilter_cmd Example.keep_start Example.read_octahedron
        Example.no_digits Example.fresh
        (with_st_options (Maxfilter.default_args "in.fif" "out.fif")
           (VInt 10) 0.9)
      = Maxfilter.build_maxfilter_cmd Example.keep_start Example.read_octahedron
          Example.no_digits Example.fresh
          (Maxfilter.default_args "in.fif" "out.fif"))
  /\ (truthy (Maxfilter.movecomp (Maxfilter.default_args "in.fif" "out.fif"))
      = false
      /\ Maxfilter.build_maxfilter_cmd Example.keep_start Example.read_octahedron
           Example.no_digits Example.fresh
           (with_movecomp_options (Maxfilter.default_args "in.fif" "out.fif")
              true (Some "hp.txt"%string) (Some "amp"%string) false)
         = Maxfilter.build_maxfilter_cmd Example.keep_start
             Example.read_octahedron Example.no_digits Example.fresh
             (Maxfilter.default_args "in.fif" "out.fif")).
Proof.
  split; (split; [reflexivity|]).
  - apply (proj1 (build_ignores_disabled_options Example.keep_start
                    Example.read_octahedron Example.no_digits Example.fresh
                    (Maxfilter.default_args "in.fif" "out.fif"))).
    reflexivity.
  - apply (proj2 (build_ignores_disabled_options Example.keep_start
                    Example.read_octahedron Example.no_digits Example.fresh
                    (Maxfilter.default_args "in.fif" "out.fif"))).
    reflexivity.
Defined.

(** X13 with three objects, the last one verbose. *)
Lemma constructions_stack_handlers_witness :
  (forall req,
      In req [("a"%string, true); ("b"%string, false); ("c"%string, true)] ->
      every_project ("/projects/" ++ fst req)%string = true)
  /\ [("a"%string, true); ("b"%string, false); ("c"%string, true)] <> []
  /\ Cluster.handlers
       (Cluster.init_all every_project (Cluster.MkLogger 0 false)
          [("a"%string, true); ("b"%string, false); ("c"%string, true)])
     = 3%nat
  /\ Cluster.written
       (Cluster.init_all every_project (Cluster.MkLogger 0 false)
          [("a"%string, true); ("b"%string, false); ("c"%string, true)])
       "[done]"
     = ["[done]"; "[done]"; "[done]"]%string.
Proof.
  split; [reflexivity|]. split; [discriminate|].
  apply (constructions_stack_handlers every_project (Cluster.MkLogger 0 false)
           [("a"%string, true); ("b"%string, false); ("c"%string, true)]
           "[done]").
  - reflexivity.
  - discriminate.
Defined.

(** X14 with a project that exists. *)
Lemma submit_before_build_raises_witness :
  Cluster.init every_project (Cluster.MkLogger 0 false) "MEG_project" false
    = (inr Example.fresh, Cluster.MkLogger 1 false)
  /\ Cluster.submit_to_isis unit always_zero Example.fresh (Cluster.NInt 1)
       false None tt
     = (([], Some (Cluster.NameError "cmd to submit is not defined yet")), tt).
Proof.
  split; [reflexivity|].
  apply (submit_before_build_raises every_project unit always_zero
           (Cluster.MkLogger 0 false) (Cluster.MkLogger 1 false)
           "MEG_project" false Example.fresh (Cluster.NInt 1) false None tt).
  reflexivity.
Defined.

(** X15 at the default arguments. *)
Lemma submit_after_build_has_command_witness :
  outcome (fst (Maxfilter.build_maxfilter_cmd Example.keep_start
                  Example.read_octahedron Example.no_digits Example.fresh
                  (Maxfilter.default_args "in.fif" "out.fif")))
    = Ok tt
  /\ snd (fst (Cluster.submit_to_isis unit always_zero
                 (snd (Maxfilter.build_maxfilter_cmd Example.keep_start
                         Example.read_octahedron Example.no_digits
                         Example.fresh
                         (Maxfilter.default_args "in.fif" "out.fif")))
                 (Cluster.NInt 4) false None tt))
     <> Some (Cluster.NameError "cmd to submit is not defined yet").
Proof.
  split; [reflexivity|].
  apply (submit_after_build_has_command Example.keep_start
           Example.read_octahedron Example.no_digits unit always_zero
           Example.fresh (Maxfilter.default_args "in.fif" "out.fif")
           (Cluster.NInt 4) false None tt).
  reflexivity.
Defined.

